(** * UDP aggregator (relay node): embedding of
    [UDP_Aggregator_GEN/UDP_Aggregator_GEN.ino]

    The sketch is a single cooperative control loop over global
    variables.  The globals become one record [State] that every
    function takes and returns; the radio, the UDP socket and the clock
    are the environment: what they deliver is an input ([Env],
    [LoopInput]) and what the sketch asks of them is a list of [Event]s.
    The events are the calls of [delay], [WiFi.disconnect],
    [WiFi.begin], [WiFi.softAPConfig] with [WiFi.softAP], [UDP.begin],
    the packets sent, [actionUponRx] and [ESP.deepSleep]; the scan and
    the answers of the driver are inputs.  Serial diagnostics are left
    out, except [actionUponRx], whose only effect is one.

    Integers: an octet ([uint8_t], and [char] seen as its bit pattern)
    is a [Z] in [0, 256); [unsigned long] is 32 bits wide on the ESP8266
    and [int] is 32 bits, two's complement. *)

From Stdlib Require Import ZArith List String Bool Lia.
From stdpp Require Import base tactics option list.
Import ListNotations.
Local Open Scope Z_scope.

(** ** Configuration constants *)

Definition BS_SSID : string := "BS_ESP8266".
Definition BS_PASS : string := "BS_ESP8266".
Definition MOTE2BS_SSID : string := "MOTE2BS_ESP8266".
Definition MOTE2BS_PASS : string := "MOTE2BS_ESP8266".
Definition IP_len : nat := 4.
Definition WIFI_CONN_DELAY_MS : Z := 500.
Definition UDP_PACKET_SIZE : nat := 9.
Definition DEEP_SLEEP_US : Z := 30000000.
Definition MSG_SENT_MAX : Z := 5.
Definition UDP_PORT : Z := 4210.
Definition tx_period : Z := 9000.

(** ** Machine integers *)

Definition wrap8 (z : Z) : Z := z mod 256.
Definition wrap_ulong (z : Z) : Z := z mod 2 ^ 32.
Definition wrap_int (z : Z) : Z := (z + 2 ^ 31) mod 2 ^ 32 - 2 ^ 31.
Definition INT_MAX : Z := 2 ^ 31 - 1.

Definition is_octet (z : Z) : Prop := 0 <= z < 256.

(** ** IPAddress: four octets, indexed 0..3 *)

Record IPAddress : Type := mkIP { ip0 : Z; ip1 : Z; ip2 : Z; ip3 : Z }.

(** [a[i]] read.  The sketch only uses indices below [IP_len]. *)
Definition ip_get (a : IPAddress) (i : nat) : Z :=
  match i with
  | 0%nat => ip0 a
  | 1%nat => ip1 a
  | 2%nat => ip2 a
  | 3%nat => ip3 a
  | _ => 0
  end.

(** [a[i] = v]: the cell is a [uint8_t], so the stored value is reduced
    modulo 256. *)
Definition ip_set (a : IPAddress) (i : nat) (v : Z) : IPAddress :=
  match i with
  | 0%nat => mkIP (wrap8 v) (ip1 a) (ip2 a) (ip3 a)
  | 1%nat => mkIP (ip0 a) (wrap8 v) (ip2 a) (ip3 a)
  | 2%nat => mkIP (ip0 a) (ip1 a) (wrap8 v) (ip3 a)
  | 3%nat => mkIP (ip0 a) (ip1 a) (ip2 a) (wrap8 v)
  | _ => a
  end.

(** [a == b] compares the four octets. *)
Definition ip_eqb (a b : IPAddress) : bool :=
  (ip0 a =? ip0 b) && (ip1 a =? ip1 b) && (ip2 a =? ip2 b) && (ip3 a =? ip3 b).

Definition ip_octets (a : IPAddress) : list Z := [ip0 a; ip1 a; ip2 a; ip3 a].

Definition ip_wf (a : IPAddress) : Prop := Forall is_octet (ip_octets a).

Definition ip_zero : IPAddress := mkIP 0 0 0 0.

(** The subnet prefix of an address: its first three octets. *)
Definition prefix (a : IPAddress) : list Z := [ip0 a; ip1 a; ip2 a].

(** ** Protocol message and sketch state *)

Record UdpMsg : Type := mkMsg {
  dstIP : IPAddress;
  srcIP : IPAddress;
  payload : list Z
}.

(** What the WiFi driver answers to [WiFi.localIP()], [WiFi.gatewayIP()]
    and [WiFi.softAPIP()]. *)
Record WiFiDriver : Type := mkWiFi {
  localIP : IPAddress;
  gatewayIP : IPAddress;
  softAPIP : IPAddress
}.

(** The globals of the sketch, with [loop]'s static [remote_PORT] and
    the driver.  [client_IP], [txSize], [txMsg] and [remote_IP] are
    declared in the sketch but never read or written. *)
Record State : Type := mkState {
  ap_ssid : string;
  ap_pass : string;
  own_IP : IPAddress;
  sub_gateway_IP : IPAddress;
  sup_gateway_IP : IPAddress;
  sub_broadcast_IP : IPAddress;
  sub_network_IP : IPAddress;
  sup_network_IP : IPAddress;
  sendernet_IP : IPAddress;
  dstnet_IP : IPAddress;
  subnetmask_IP : IPAddress;
  rxBuffer : list Z;
  rxSize : Z;
  txBuffer : list Z;
  connectToBS : bool;
  rxMsg : UdpMsg;
  previousMillis : Z;
  msg_sent_cnt : Z;
  remote_PORT : Z;
  WiFi : WiFiDriver
}.

(** Assignment to one global. *)
Definition set_ap_ssid (v : string) (st : State) : State :=
  mkState v (ap_pass st) (own_IP st) (sub_gateway_IP st) (sup_gateway_IP st)
    (sub_broadcast_IP st) (sub_network_IP st) (sup_network_IP st)
    (sendernet_IP st) (dstnet_IP st) (subnetmask_IP st) (rxBuffer st)
    (rxSize st) (txBuffer st) (connectToBS st) (rxMsg st)
    (previousMillis st) (msg_sent_cnt st) (remote_PORT st) (WiFi st).

Definition set_ap_pass (v : string) (st : State) : State :=
  mkState (ap_ssid st) v (own_IP st) (sub_gateway_IP st) (sup_gateway_IP st)
    (sub_broadcast_IP st) (sub_network_IP st) (sup_network_IP st)
    (sendernet_IP st) (dstnet_IP st) (subnetmask_IP st) (rxBuffer st)
    (rxSize st) (txBuffer st) (connectToBS st) (rxMsg st)
    (previousMillis st) (msg_sent_cnt st) (remote_PORT st) (WiFi st).

Definition set_own_IP (v : IPAddress) (st : State) : State :=
  mkState (ap_ssid st) (ap_pass st) v (sub_gateway_IP st)
    (sup_gateway_IP st) (sub_broadcast_IP st) (sub_network_IP st)
    (sup_network_IP st) (sendernet_IP st) (dstnet_IP st) (subnetmask_IP st)
    (rxBuffer st) (rxSize st) (txBuffer st) (connectToBS st) (rxMsg st)
    (previousMillis st) (msg_sent_cnt st) (remote_PORT st) (WiFi st).

Definition set_sub_gateway_IP (v : IPAddress) (st : State) : State :=
  mkState (ap_ssid st) (ap_pass st) (own_IP st) v (sup_gateway_IP st)
    (sub_broadcast_IP st) (sub_network_IP st) (sup_network_IP st)
    (sendernet_IP st) (dstnet_IP st) (subnetmask_IP st) (rxBuffer st)
    (rxSize st) (txBuffer st) (connectToBS st) (rxMsg st)
    (previousMillis st) (msg_sent_cnt st) (remote_PORT st) (WiFi st).

Definition set_sup_gateway_IP (v : IPAddress) (st : State) : State :=
  mkState (ap_ssid st) (ap_pass st) (own_IP st) (sub_gateway_IP st) v
    (sub_broadcast_IP st) (sub_network_IP st) (sup_network_IP st)
    (sendernet_IP st) (dstnet_IP st) (subnetmask_IP st) (rxBuffer st)
    (rxSize st) (txBuffer st) (connectToBS st) (rxMsg st)
    (previousMillis st) (msg_sent_cnt st) (remote_PORT st) (WiFi st).

Definition set_sub_broadcast_IP (v : IPAddress) (st : State) : State :=
  mkState (ap_ssid st) (ap_pass st) (own_IP st) (sub_gateway_IP st)
    (sup_gateway_IP st) v (sub_network_IP st) (sup_network_IP st)
    (sendernet_IP st) (dstnet_IP st) (subnetmask_IP st) (rxBuffer st)
    (rxSize st) (txBuffer st) (connectToBS st) (rxMsg st)
    (previousMillis st) (msg_sent_cnt st) (remote_PORT st) (WiFi st).

Definition set_sub_network_IP (v : IPAddress) (st : State) : State :=
  mkState (ap_ssid st) (ap_pass st) (own_IP st) (sub_gateway_IP st)
    (sup_gateway_IP st) (sub_broadcast_IP st) v (sup_network_IP st)
    (sendernet_IP st) (dstnet_IP st) (subnetmask_IP st) (rxBuffer st)
    (rxSize st) (txBuffer st) (connectToBS st) (rxMsg st)
    (previousMillis st) (msg_sent_cnt st) (remote_PORT st) (WiFi st).

Definition set_sup_network_IP (v : IPAddress) (st : State) : State :=
  mkState (ap_ssid st) (ap_pass st) (own_IP st) (sub_gateway_IP st)
    (sup_gateway_IP st) (sub_broadcast_IP st) (sub_network_IP st) v
    (sendernet_IP st) (dstnet_IP st) (subnetmask_IP st) (rxBuffer st)
    (rxSize st) (txBuffer st) (connectToBS st) (rxMsg st)
    (previousMillis st) (msg_sent_cnt st) (remote_PORT st) (WiFi st).

Definition set_sendernet_IP (v : IPAddress) (st : State) : State :=
  mkState (ap_ssid st) (ap_pass st) (own_IP st) (sub_gateway_IP st)
    (sup_gateway_IP st) (sub_broadcast_IP st) (sub_network_IP st)
    (sup_network_IP st) v (dstnet_IP st) (subnetmask_IP st) (rxBuffer st)
    (rxSize st) (txBuffer st) (connectToBS st) (rxMsg st)
    (previousMillis st) (msg_sent_cnt st) (remote_PORT st) (WiFi st).

Definition set_dstnet_IP (v : IPAddress) (st : State) : State :=
  mkState (ap_ssid st) (ap_pass st) (own_IP st) (sub_gateway_IP st)
    (sup_gateway_IP st) (sub_broadcast_IP st) (sub_network_IP st)
    (sup_network_IP st) (sendernet_IP st) v (subnetmask_IP st) (rxBuffer st)
    (rxSize st) (txBuffer st) (connectToBS st) (rxMsg st)
    (previousMillis st) (msg_sent_cnt st) (remote_PORT st) (WiFi st).

Definition set_subnetmask_IP (v : IPAddress) (st : State) : State :=
  mkState (ap_ssid st) (ap_pass st) (own_IP st) (sub_gateway_IP st)
    (sup_gateway_IP st) (sub_broadcast_IP st) (sub_network_IP st)
    (sup_network_IP st) (sendernet_IP st) (dstnet_IP st) v (rxBuffer st)
    (rxSize st) (txBuffer st) (connectToBS st) (rxMsg st)
    (previousMillis st) (msg_sent_cnt st) (remote_PORT st) (WiFi st).

Definition set_rxBuffer (v : list Z) (st : State) : State :=
  mkState (ap_ssid st) (ap_pass st) (own_IP st) (sub_gateway_IP st)
    (sup_gateway_IP st) (sub_broadcast_IP st) (sub_network_IP st)
    (sup_network_IP st) (sendernet_IP st) (dstnet_IP st) (subnetmask_IP st)
    v (rxSize st) (txBuffer st) (connectToBS st) (rxMsg st)
    (previousMillis st) (msg_sent_cnt st) (remote_PORT st) (WiFi st).

Definition set_rxSize (v : Z) (st : State) : State :=
  mkState (ap_ssid st) (ap_pass st) (own_IP st) (sub_gateway_IP st)
    (sup_gateway_IP st) (sub_broadcast_IP st) (sub_network_IP st)
    (sup_network_IP st) (sendernet_IP st) (dstnet_IP st) (subnetmask_IP st)
    (rxBuffer st) v (txBuffer st) (connectToBS st) (rxMsg st)
    (previousMillis st) (msg_sent_cnt st) (remote_PORT st) (WiFi st).

Definition set_txBuffer (v : list Z) (st : State) : State :=
  mkState (ap_ssid st) (ap_pass st) (own_IP st) (sub_gateway_IP st)
    (sup_gateway_IP st) (sub_broadcast_IP st) (sub_network_IP st)
    (sup_network_IP st) (sendernet_IP st) (dstnet_IP st) (subnetmask_IP st)
    (rxBuffer st) (rxSize st) v (connectToBS st) (rxMsg st)
    (previousMillis st) (msg_sent_cnt st) (remote_PORT st) (WiFi st).

Definition set_connectToBS (v : bool) (st : State) : State :=
  mkState (ap_ssid st) (ap_pass st) (own_IP st) (sub_gateway_IP st)
    (sup_gateway_IP st) (sub_broadcast_IP st) (sub_network_IP st)
    (sup_network_IP st) (sendernet_IP st) (dstnet_IP st) (subnetmask_IP st)
    (rxBuffer st) (rxSize st) (txBuffer st) v (rxMsg st) (previousMillis st)
    (msg_sent_cnt st) (remote_PORT st) (WiFi st).

Definition set_rxMsg (v : UdpMsg) (st : State) : State :=
  mkState (ap_ssid st) (ap_pass st) (own_IP st) (sub_gateway_IP st)
    (sup_gateway_IP st) (sub_broadcast_IP st) (sub_network_IP st)
    (sup_network_IP st) (sendernet_IP st) (dstnet_IP st) (subnetmask_IP st)
    (rxBuffer st) (rxSize st) (txBuffer st) (connectToBS st) v
    (previousMillis st) (msg_sent_cnt st) (remote_PORT st) (WiFi st).

Definition set_previousMillis (v : Z) (st : State) : State :=
  mkState (ap_ssid st) (ap_pass st) (own_IP st) (sub_gateway_IP st)
    (sup_gateway_IP st) (sub_broadcast_IP st) (sub_network_IP st)
    (sup_network_IP st) (sendernet_IP st) (dstnet_IP st) (subnetmask_IP st)
    (rxBuffer st) (rxSize st) (txBuffer st) (connectToBS st) (rxMsg st) v
    (msg_sent_cnt st) (remote_PORT st) (WiFi st).

Definition set_msg_sent_cnt (v : Z) (st : State) : State :=
  mkState (ap_ssid st) (ap_pass st) (own_IP st) (sub_gateway_IP st)
    (sup_gateway_IP st) (sub_broadcast_IP st) (sub_network_IP st)
    (sup_network_IP st) (sendernet_IP st) (dstnet_IP st) (subnetmask_IP st)
    (rxBuffer st) (rxSize st) (txBuffer st) (connectToBS st) (rxMsg st)
    (previousMillis st) v (remote_PORT st) (WiFi st).

Definition set_remote_PORT (v : Z) (st : State) : State :=
  mkState (ap_ssid st) (ap_pass st) (own_IP st) (sub_gateway_IP st)
    (sup_gateway_IP st) (sub_broadcast_IP st) (sub_network_IP st)
    (sup_network_IP st) (sendernet_IP st) (dstnet_IP st) (subnetmask_IP st)
    (rxBuffer st) (rxSize st) (txBuffer st) (connectToBS st) (rxMsg st)
    (previousMillis st) (msg_sent_cnt st) v (WiFi st).

Definition set_WiFi (v : WiFiDriver) (st : State) : State :=
  mkState (ap_ssid st) (ap_pass st) (own_IP st) (sub_gateway_IP st)
    (sup_gateway_IP st) (sub_broadcast_IP st) (sub_network_IP st)
    (sup_network_IP st) (sendernet_IP st) (dstnet_IP st) (subnetmask_IP st)
    (rxBuffer st) (rxSize st) (txBuffer st) (connectToBS st) (rxMsg st)
    (previousMillis st) (msg_sent_cnt st) (remote_PORT st) v.

(** The state at reset: zero-initialised globals, the netmask and the
    access-point credentials given by their initialisers. *)
Definition init_state : State :=
  mkState "MOTE_ESP8266" "MOTE_ESP8266" ip_zero ip_zero ip_zero ip_zero
    ip_zero ip_zero ip_zero ip_zero (mkIP 255 255 255 0)
    (replicate UDP_PACKET_SIZE 0) 0 (replicate UDP_PACKET_SIZE 0) false
    (mkMsg ip_zero ip_zero (replicate (UDP_PACKET_SIZE - 2 * IP_len) 0))
    0 0 0 (mkWiFi ip_zero ip_zero ip_zero).

(** ** Environment and events *)

(** What the radio does during [setup]: the scan result (name and
    signal strength per index), the answer of the k-th [WiFi.status()]
    poll ([true] for [WL_CONNECTED]) and the addresses the uplink hands
    out once connected. *)
Record Env : Type := mkEnv {
  scan : list (string * Z);
  wifi_status : nat -> bool;
  dhcp_local : IPAddress;
  dhcp_gateway : IPAddress
}.

Definition SSID (e : Env) (i : nat) : string :=
  default EmptyString (fst <$> scan e !! i).
Definition RSSI (e : Env) (i : nat) : Z :=
  default 0 (snd <$> scan e !! i).

Inductive Event : Type :=
| EvDisconnect
| EvBegin (ssid pass : string)
| EvDelay (ms : Z)
| EvSoftAP (ssid pass : string) (ip gw mask : IPAddress)
| EvListen (port : Z)
| EvSend (dst : IPAddress) (port : Z) (bytes : list Z)
| EvActionUponRx (size : Z) (last : Z)
| EvDeepSleep (us : Z).

(** [ESP.deepSleep] does not return: the session ends there. *)
Inductive Mode : Type := Active | Sleeping.

Definition is_send (e : Event) : bool :=
  match e with EvSend _ _ _ => true | _ => false end.
Definition is_begin (e : Event) : bool :=
  match e with EvBegin _ _ => true | _ => false end.
Definition is_sleep (e : Event) : bool :=
  match e with EvDeepSleep _ => true | _ => false end.
Definition is_deliver (e : Event) : bool :=
  match e with EvActionUponRx _ _ => true | _ => false end.

Definition count_ev (p : Event -> bool) (tr : list Event) : nat :=
  length (filter (fun e => p e = true) tr).

(** ** Packet codec *)

Definition buf_at (buf : list Z) (i : nat) : Z := default 0 (buf !! i).

(** First loop of [parseMsg]: [i] runs from [IP_len - 1] down to 0. *)
Fixpoint parseMsg_ips (i : nat) (buf : list Z) (m : UdpMsg) : UdpMsg :=
  match i with
  | O => m
  | S i' =>
      parseMsg_ips i' buf
        (mkMsg (ip_set (dstIP m) i' (buf_at buf i'))
               (ip_set (srcIP m) i' (buf_at buf (i' + IP_len)))
               (payload m))
  end.

(** Second loop of [parseMsg]: [n] cells from index [i] upwards; every
    cell of the payload array is assigned, [payload[i] = buf[i + 8]]. *)
Fixpoint parseMsg_payload (n i : nat) (buf : list Z) : list Z :=
  match n with
  | O => []
  | S n' => buf_at buf (i + 2 * IP_len) :: parseMsg_payload n' (S i) buf
  end.

Definition parseMsg (rxBufferPtr : list Z) (st : State) : State :=
  let m := parseMsg_ips IP_len rxBufferPtr (rxMsg st) in
  set_rxMsg
    (mkMsg (dstIP m) (srcIP m)
       (parseMsg_payload (UDP_PACKET_SIZE - 2 * IP_len) 0 rxBufferPtr))
    st.

(** Loop of [fillBuffer]: [i] from [IP_len - 1] down to 0 writes the
    gateway octet at [i] and the local octet at [i + IP_len]. *)
Fixpoint fillBuffer_ips (i : nat) (st : State) (buf : list Z) : list Z :=
  match i with
  | O => buf
  | S i' =>
      fillBuffer_ips i' st
        (<[(i' + IP_len)%nat := ip_get (localIP (WiFi st)) i']>
           (<[i' := ip_get (sup_gateway_IP st) i']> buf))
  end.

Definition fillBuffer (txBufferPtr : list Z) (st : State) : State :=
  set_txBuffer
    (<[(2 * IP_len)%nat := 65]> (fillBuffer_ips IP_len st txBufferPtr)) st.

(** Modelled from the spec: the sketch has no encoder for an arbitrary
    message (the one in [fillBuffer] is commented out); this one follows
    the wire layout of the spec, bytes [0..3] the destination, [4..7]
    the source, [8..] the payload. *)
Definition encodeMsg (m : UdpMsg) : list Z :=
  ip_octets (dstIP m) ++ ip_octets (srcIP m) ++ payload m.

(** ** Link formation *)

(** [while (WiFi.status() != WL_CONNECTED) delay(...)], from poll [k]
    on.  The sketch puts no bound on the number of polls; [fuel] bounds
    it here and [None] means the fuel ran out. *)
Fixpoint wait_connected (fuel : nat) (e : Env) (k : nat)
  : option (list Event) :=
  match fuel with
  | O => None
  | S fuel' =>
      if wifi_status e k then Some []
      else cons (EvDelay WIFI_CONN_DELAY_MS) <$> wait_connected fuel' e (S k)
  end.

(** [createLink(&connectToBS, network_idx)].  Once the station is
    connected the driver answers with the addresses of the uplink. *)
Definition createLink (e : Env) (fuel : nat) (network_idx : nat) (st : State)
  : option (State * list Event) :=
  let st := set_ap_ssid "MOTE2BS_ESP8266" st in
  let st := set_ap_pass "MOTE2BS_ESP8266" st in
  let begin :=
    if connectToBS st then EvBegin BS_SSID BS_PASS
    else EvBegin (SSID e network_idx) MOTE2BS_PASS in
  delays ← wait_connected fuel e 0;
  let st :=
    set_WiFi (mkWiFi (dhcp_local e) (dhcp_gateway e) (softAPIP (WiFi st))) st in
  let st := set_sup_gateway_IP (gatewayIP (WiFi st)) st in
  let st := set_own_IP (localIP (WiFi st)) st in
  let st :=
    set_own_IP
      (ip_set (own_IP st) 2
         (ip_get (own_IP st) 2 + ip_get (localIP (WiFi st)) 3)) st in
  let st := set_own_IP (ip_set (own_IP st) 3 1) st in
  let st := set_sub_gateway_IP (own_IP st) st in
  Some (st, [EvDisconnect; begin] ++ delays).

(** ** Discovery *)

(** First loop of [setup], [i] from [n - 1] down to 0: the index at
    which the loop finds the base station and breaks, if any. *)
Fixpoint find_BS (e : Env) (i : nat) : option nat :=
  match i with
  | O => None
  | S i' => if (SSID e i' =? BS_SSID)%string then Some i' else find_BS e i'
  end.

(** Second loop of [setup], [i] from [n - 1] down to 0, on the locals
    [max_rssi_idx], [max_rssi] and the global [connectToBS]. *)
Fixpoint find_MOTE2BS (e : Env) (i : nat) (max_rssi_idx max_rssi : Z)
    (flag : bool) : Z * Z * bool :=
  match i with
  | O => (max_rssi_idx, max_rssi, flag)
  | S i' =>
      if (SSID e i' =? MOTE2BS_SSID)%string then
        if max_rssi <? RSSI e i' then
          find_MOTE2BS e i' (Z.of_nat i') (RSSI e i') false
        else find_MOTE2BS e i' max_rssi_idx max_rssi false
      else find_MOTE2BS e i' max_rssi_idx max_rssi flag
  end.

(** Last loop of [setup], [i] from [IP_len - 1] down to 0. *)
Fixpoint setup_networks (i : nat) (st : State) : State :=
  match i with
  | O => st
  | S i' =>
      let st :=
        set_sub_network_IP
          (ip_set (sub_network_IP st) i'
             (Z.land (ip_get (softAPIP (WiFi st)) i')
                     (ip_get (subnetmask_IP st) i'))) st in
      let st :=
        set_sup_network_IP
          (ip_set (sup_network_IP st) i'
             (Z.land (ip_get (localIP (WiFi st)) i')
                     (ip_get (subnetmask_IP st) i'))) st in
      setup_networks i' st
  end.

(** The part of [setup] after discovery: open the own access point
    ([softAPConfig] makes [own_IP] the access point's address), listen,
    and compute broadcast and network addresses. *)
Definition setup_ap (st : State) : State * list Event :=
  let ev :=
    [EvSoftAP (ap_ssid st) (ap_pass st) (own_IP st) (sub_gateway_IP st)
       (subnetmask_IP st); EvListen UDP_PORT] in
  let st :=
    set_WiFi (mkWiFi (localIP (WiFi st)) (gatewayIP (WiFi st)) (own_IP st))
      st in
  let st := set_sub_broadcast_IP (softAPIP (WiFi st)) st in
  let st :=
    set_sub_broadcast_IP
      (ip_set (sub_broadcast_IP st) (IP_len - 1) 255) st in
  (setup_networks IP_len st, ev).

(** [setup].  It starts with the initial delay; [n] is the number of
    networks [WiFi.scanNetworks()] found; after the sleep request
    nothing more of [setup] runs. *)
Definition setup (e : Env) (fuel : nat) (st : State)
  : option (State * list Event * Mode) :=
  let ev0 := [EvDelay WIFI_CONN_DELAY_MS] in
  let n := length (scan e) in
  '(st, ev1) ←
    match find_BS e n with
    | Some _ => createLink e fuel 0 (set_connectToBS true st)
    | None => Some (st, [])
    end;
  '(st, ev2, mode) ←
    (if negb (connectToBS st) then
       let '(max_rssi_idx, _, flag) :=
         find_MOTE2BS e n (-1) (-1000) (connectToBS st) in
       let st := set_connectToBS flag st in
       if 0 <=? max_rssi_idx then
         '(st, ev) ← createLink e fuel (Z.to_nat max_rssi_idx) st;
         Some (st, ev, Active)
       else Some (st, [EvDeepSleep DEEP_SLEEP_US], Sleeping)
     else Some (st, [], Active));
  match mode with
  | Sleeping => Some (st, ev0 ++ ev1 ++ ev2, Sleeping)
  | Active =>
      let '(st, ev3) := setup_ap st in
      Some (st, ev0 ++ ev1 ++ ev2 ++ ev3, Active)
  end.

(** The uplink decision [setup] acts on, read off its two scanning
    loops. *)
Inductive Decision : Type :=
| ConnectAsRootClient
| ConnectViaRelay (idx : nat)
| NoUplinkFound.

Definition discovery (e : Env) : Decision :=
  let n := length (scan e) in
  match find_BS e n with
  | Some _ => ConnectAsRootClient
  | None =>
      let '(max_rssi_idx, _, _) := find_MOTE2BS e n (-1) (-1000) false in
      if 0 <=? max_rssi_idx then ConnectViaRelay (Z.to_nat max_rssi_idx)
      else NoUplinkFound
  end.

(** ** The main loop *)

Record Datagram : Type := mkDatagram {
  dg_bytes : list Z;
  dg_remoteIP : IPAddress;
  dg_remotePort : Z
}.

(** One pass of [loop] sees: the datagram waiting on the socket, if
    any, and the two readings of [millis()]. *)
Record LoopInput : Type := mkInput {
  inbound : option Datagram;
  millis1 : Z;
  millis2 : Z
}.

(** [UDP.parsePacket()]: the size of the waiting datagram, 0 if none. *)
Definition UDP_parsePacket (inp : LoopInput) : Z :=
  match inbound inp with
  | Some d => Z.of_nat (length (dg_bytes d))
  | None => 0
  end.

(** [UDP.read(buf, len)]: copies at most [len] bytes to the front of
    the buffer, the rest of the buffer stays; returns the count. *)
Definition UDP_read (d : Datagram) (buf : list Z) (len : nat) : list Z * Z :=
  let got := take len (dg_bytes d) in
  (got ++ drop (length got) buf, Z.of_nat (length got)).

(** [UDP.beginPacket(ip, port); UDP.write(buf, size); UDP.endPacket()]. *)
Definition UDP_send (ip : IPAddress) (port : Z) (buf : list Z) (size : Z)
  : Event :=
  EvSend ip port (take (Z.to_nat size) buf).

Definition actionUponRx (st : State) : Event :=
  EvActionUponRx (rxSize st) (buf_at (rxBuffer st) (Z.to_nat (rxSize st - 1))).

(** The body of [if (UDP.parsePacket())]. *)
Definition forward (d : Datagram) (st : State) : State * list Event :=
  let '(buf, n) := UDP_read d (rxBuffer st) UDP_PACKET_SIZE in
  let st := set_rxSize n (set_rxBuffer buf st) in
  let st := parseMsg (rxBuffer st) st in
  let st := set_remote_PORT (dg_remotePort d) st in
  let st := set_sendernet_IP (dg_remoteIP d) st in
  let st := set_sendernet_IP (ip_set (sendernet_IP st) (IP_len - 1) 0) st in
  let st := set_dstnet_IP (dstIP (rxMsg st)) st in
  let st := set_dstnet_IP (ip_set (dstnet_IP st) (IP_len - 1) 0) st in
  if ip_eqb (sendernet_IP st) (sub_network_IP st) then
    (st, [UDP_send (sup_gateway_IP st) (remote_PORT st) (rxBuffer st)
            (rxSize st)])
  else if ip_eqb (dstIP (rxMsg st)) (localIP (WiFi st)) then
    (st, [actionUponRx st])
  else if ip_eqb (dstnet_IP st) (sub_network_IP st) then
    (st, [UDP_send (dstIP (rxMsg st)) (remote_PORT st) (rxBuffer st)
            (rxSize st)])
  else
    (st, [UDP_send (sub_broadcast_IP st) (remote_PORT st) (rxBuffer st)
            (rxSize st)]).

(** The timer test [currentMillis - previousMillis >= tx_period], in
    [unsigned long] arithmetic. *)
Definition fires (inp : LoopInput) (st : State) : bool :=
  tx_period <=? wrap_ulong (millis1 inp - previousMillis st).

(** The body of the timer branch. *)
Definition telemetry (inp : LoopInput) (st : State) : State * list Event :=
  let st := set_previousMillis (millis2 inp) st in
  let st := set_msg_sent_cnt (wrap_int (msg_sent_cnt st + 1)) st in
  let st := fillBuffer (txBuffer st) st in
  (st, [UDP_send (sup_gateway_IP st) UDP_PORT (txBuffer st)
          (Z.of_nat UDP_PACKET_SIZE)]).

Definition loop (inp : LoopInput) (st : State) : State * list Event * Mode :=
  let '(st, ev1) :=
    match inbound inp with
    | Some d => if UDP_parsePacket inp =? 0 then (st, []) else forward d st
    | None => (st, [])
    end in
  let '(st, ev2) := if fires inp st then telemetry inp st else (st, []) in
  if msg_sent_cnt st =? MSG_SENT_MAX then
    (st, ev1 ++ ev2 ++ [EvDeepSleep DEEP_SLEEP_US], Sleeping)
  else (st, ev1 ++ ev2, Active).

(** A session after [setup]: [loop] is called on the successive inputs
    until it sleeps.  Each pass is logged with whether the timer fired,
    the events and the mode the pass ends in. *)
Fixpoint session (inps : list LoopInput) (st : State)
  : list (bool * list Event * Mode) :=
  match inps with
  | [] => []
  | inp :: rest =>
      let '(st', ev, m) := loop inp st in
      (fires inp st, ev, m) ::
        match m with
        | Sleeping => []
        | Active => session rest st'
        end
  end.

(** States of a session: the one [setup] leaves, and those [loop]
    leaves while the node stays awake. *)
Inductive Reachable (e : Env) : State -> Prop :=
| Reach_setup fuel st tr :
    setup e fuel init_state = Some (st, tr, Active) -> Reachable e st
| Reach_loop st inp st' tr :
    Reachable e st -> loop inp st = (st', tr, Active) -> Reachable e st'.

(** The state [createLink] returns from [st] once the station is
    connected. *)
Definition link_state (e : Env) (st : State) : State :=
  let l := dhcp_local e in
  let own := mkIP (ip0 l) (ip1 l) (wrap8 (ip2 l + ip3 l)) 1 in
  mkState "MOTE2BS_ESP8266" "MOTE2BS_ESP8266" own own (dhcp_gateway e)
    (sub_broadcast_IP st) (sub_network_IP st) (sup_network_IP st)
    (sendernet_IP st) (dstnet_IP st) (subnetmask_IP st) (rxBuffer st)
    (rxSize st) (txBuffer st) (connectToBS st) (rxMsg st) (previousMillis st)
    (msg_sent_cnt st) (remote_PORT st)
    (mkWiFi l (dhcp_gateway e) (softAPIP (WiFi st))).

(** Invariant of a session on the uplink described by [e]. *)
Definition Inv (e : Env) (st : State) : Prop :=
  WiFi st = mkWiFi (dhcp_local e) (dhcp_gateway e) (own_IP st) /\
  own_IP st =
    mkIP (ip0 (dhcp_local e)) (ip1 (dhcp_local e))
         (wrap8 (ip2 (dhcp_local e) + ip3 (dhcp_local e))) 1 /\
  sup_gateway_IP st = dhcp_gateway e /\
  sub_gateway_IP st = own_IP st /\
  subnetmask_IP st = mkIP 255 255 255 0 /\
  sub_network_IP st =
    mkIP (wrap8 (Z.land (ip0 (own_IP st)) 255))
         (wrap8 (Z.land (ip1 (own_IP st)) 255))
         (wrap8 (Z.land (ip2 (own_IP st)) 255)) 0 /\
  sub_broadcast_IP st =
    mkIP (ip0 (own_IP st)) (ip1 (own_IP st)) (ip2 (own_IP st)) 255 /\
  length (txBuffer st) = UDP_PACKET_SIZE /\
  0 <= msg_sent_cnt st < MSG_SENT_MAX.

(** Number of passes of a session log in which the timer fired. *)
Definition count_fired (log : list (bool * list Event * Mode)) : Z :=
  Z.of_nat (length (filter (fun p => fst (fst p) = true) log)).

(** [st] with the receive and transmit buffers, the receive size, the
    parsed message, the sender and destination subnets, the sender
    port, the timer and the send counter taken from [src]. *)
Definition with_scratch (src st : State) : State :=
  mkState (ap_ssid st) (ap_pass st) (own_IP st) (sub_gateway_IP st)
    (sup_gateway_IP st) (sub_broadcast_IP st) (sub_network_IP st)
    (sup_network_IP st) (sendernet_IP src) (dstnet_IP src) (subnetmask_IP st)
    (rxBuffer src) (rxSize src) (txBuffer src) (connectToBS st) (rxMsg src)
    (previousMillis src) (msg_sent_cnt src) (remote_PORT src) (WiFi st).

(** The state and events of the first half of a pass. *)
Definition receive (inp : LoopInput) (st : State) : State * list Event :=
  match inbound inp with
  | Some d => if UDP_parsePacket inp =? 0 then (st, []) else forward d st
  | None => (st, [])
  end.

(** The candidate [k] with strength [r] beats every relay below index
    [i]: none is stronger, and those scanned before it (higher index)
    are strictly weaker. *)
Definition best_below (e : Env) (i k : nat) (r : Z) : Prop :=
  forall j, (j < i)%nat -> SSID e j = MOTE2BS_SSID ->
            RSSI e j <= r /\ ((k < j)%nat -> RSSI e j < r).


(** ** Vocabulary of the forwarding claims *)

Definition wf_datagram (d : Datagram) : Prop :=
  length (dg_bytes d) = UDP_PACKET_SIZE /\ Forall is_octet (dg_bytes d).

(** The subnet of an address: the address with its host octet cleared,
    as [loop] computes [sendernet_IP] and [dstnet_IP]. *)
Definition subnetOf (a : IPAddress) : IPAddress := ip_set a (IP_len - 1) 0.

Definition embedded_dst (bytes : list Z) : IPAddress :=
  mkIP (buf_at bytes 0) (buf_at bytes 1) (buf_at bytes 2) (buf_at bytes 3).
Definition embedded_src (bytes : list Z) : IPAddress :=
  mkIP (buf_at bytes 4) (buf_at bytes 5) (buf_at bytes 6) (buf_at bytes 7).

Inductive Case : Type := CaseA | CaseB | CaseC | CaseD.

(** The four cases in priority order; [self] is the address a packet
    must carry as destination to count as addressed to this node. *)
Definition applies_with (self : State -> IPAddress) (c : Case)
    (d : Datagram) (st : State) : Prop :=
  let from_child := subnetOf (dg_remoteIP d) = sub_network_IP st in
  let to_self := embedded_dst (dg_bytes d) = self st in
  let to_child := subnetOf (embedded_dst (dg_bytes d)) = sub_network_IP st in
  match c with
  | CaseA => from_child
  | CaseB => ~ from_child /\ to_self
  | CaseC => ~ from_child /\ ~ to_self /\ to_child
  | CaseD => ~ from_child /\ ~ to_self /\ ~ to_child
  end.

(** The address of the node on its uplink, the one [loop] compares
    with. *)
Definition uplink_address (st : State) : IPAddress := localIP (WiFi st).

Definition applies : Case -> Datagram -> State -> Prop :=
  applies_with uplink_address.

Definition outbound (d : Datagram) (st : State) : list Event :=
  snd (forward d st).

(** "Exactly one case applies, and the packet count follows it", for a
    given reading of "this node's address". *)
Definition classification_claim (self : State -> IPAddress)
    (d : Datagram) (st : State) : Prop :=
  exists c,
    applies_with self c d st /\
    (forall c', applies_with self c' d st -> c' = c) /\
    count_ev is_send (outbound d st) =
      match c with CaseB => 0%nat | _ => 1%nat end.

(** "A packet for this node from outside the downstream subnet is
    delivered locally and nothing is sent", likewise. *)
Definition local_delivery_claim (self : State -> IPAddress)
    (d : Datagram) (st : State) : Prop :=
  subnetOf (dg_remoteIP d) <> sub_network_IP st ->
  embedded_dst (dg_bytes d) = self st ->
  count_ev is_deliver (outbound d st) = 1%nat /\
  count_ev is_send (outbound d st) = 0%nat.

(** "A packet in case a goes to the upstream neighbour, in case c to
    its embedded destination, in case d to the downstream broadcast
    address, unchanged and to the port of its sender", likewise. *)
Definition forwarding_claim (self : State -> IPAddress)
    (d : Datagram) (st : State) : Prop :=
  (applies_with self CaseA d st ->
   outbound d st =
     [EvSend (sup_gateway_IP st) (dg_remotePort d) (dg_bytes d)]) /\
  (applies_with self CaseC d st ->
   outbound d st =
     [EvSend (embedded_dst (dg_bytes d)) (dg_remotePort d) (dg_bytes d)]) /\
  (applies_with self CaseD d st ->
   outbound d st =
     [EvSend (mkIP (ip0 (sub_network_IP st)) (ip1 (sub_network_IP st))
                   (ip2 (sub_network_IP st)) 255)
        (dg_remotePort d) (dg_bytes d)]).

(** The telemetry packet with a given source address. *)
Definition telemetry_packet (src : IPAddress) (st : State) : list Z :=
  ip_octets (sup_gateway_IP st) ++ ip_octets src ++ [65].

(** "A firing sends the telemetry packet with this node's address as
    source", likewise. *)
Definition telemetry_claim (self : State -> IPAddress)
    (inp : LoopInput) (st : State) : Prop :=
  fires inp st = true ->
  In (EvSend (sup_gateway_IP st) UDP_PORT (telemetry_packet (self st) st))
     (snd (fst (loop inp st))).

(** ** A concrete session, used to evaluate the sketch *)

(** The base station is in range; its access point is 192.168.4.1 and
    hands out 192.168.4.2, so the node owns 192.168.6.0/24. *)
Definition relay_env : Env :=
  mkEnv [("HomeNet"%string, -48); ("BS_ESP8266"%string, -71)]
        (fun k => (1 <=? k)%nat) (mkIP 192 168 4 2) (mkIP 192 168 4 1).

Definition relay_state : State :=
  Eval vm_compute in
  match setup relay_env 2 init_state with
  | Some (st, _, _) => st
  | None => init_state
  end.

(** Datagrams for that session: to the derived own address, from the
    base station and from another station of its network; to the
    address on the uplink; from a child; to a child; to an unknown
    subnet. *)
Definition dgram_to_own_from_uplink : Datagram :=
  mkDatagram [192; 168; 6; 1; 192; 168; 4; 1; 66] (mkIP 192 168 4 1) 4210.
Definition dgram_to_own_from_station : Datagram :=
  mkDatagram [192; 168; 6; 1; 192; 168; 4; 3; 49] (mkIP 192 168 4 3) 4210.
Definition dgram_to_uplink_address : Datagram :=
  mkDatagram [192; 168; 4; 2; 192; 168; 4; 1; 66] (mkIP 192 168 4 1) 4210.
Definition dgram_from_child : Datagram :=
  mkDatagram [192; 168; 6; 1; 192; 168; 6; 7; 110] (mkIP 192 168 6 7) 4210.
Definition dgram_to_child : Datagram :=
  mkDatagram [192; 168; 6; 9; 192; 168; 4; 1; 66] (mkIP 192 168 4 1) 4210.
Definition dgram_elsewhere : Datagram :=
  mkDatagram [172; 16; 0; 4; 192; 168; 4; 1; 66] (mkIP 192 168 4 1) 4210.

Definition tick (now : Z) : LoopInput := mkInput None now (now + 1).

Definition five_ticks : list LoopInput :=
  [tick 9000; tick 13000; tick 18001; tick 27002; tick 36003; tick 45004;
   tick 54005; tick 63006].

(** A scan that sees nothing of the network. *)
Definition lonely_env : Env :=
  mkEnv [("HomeNet"%string, -48)] (fun _ => false) ip_zero ip_zero.

(** Two relays of equal strength and a weaker one. *)
Definition two_relays_env : Env :=
  mkEnv [("MOTE2BS_ESP8266"%string, -60); ("MOTE2BS_ESP8266"%string, -52);
         ("HomeNet"%string, -40); ("MOTE2BS_ESP8266"%string, -52)]
        (fun k => (2 <=? k)%nat) (mkIP 192 168 9 3) (mkIP 192 168 9 1).

(** * The peers of the relay

    The base station sketch (the UDP server, whose access point is
    [BS_ESP8266]) and the leaf sketch [UDP_Client_GEN.ino], embedded
    the same way, each in a module of its own since the three sketches
    share the names of their globals and functions. *)

Module BaseStation.

Definition AP_SSID : string := "BS_ESP8266".
Definition AP_PASS : string := "BS_ESP8266".
Definition HIGH : Z := 1.

(** The globals the running code uses, [loop]'s statics, the level of
    the LED pin and the driver's addresses.  [client_IP], [returnVal],
    [previousMillis] and [tx_period] are declared but not used; of the
    functions, [actionUponRx] and [actionUponTx] are never called. *)
Record State : Type := mkState {
  own_IP : IPAddress;
  gateway_IP : IPAddress;
  subnet_IP : IPAddress;
  rxBuffer : list Z;
  txBuffer : list Z;
  rxSize : Z;
  remote_IP : IPAddress;
  remote_PORT : Z;
  sender_known : Z;
  led : Z;
  softAPIP : IPAddress;
  sta_gatewayIP : IPAddress
}.

Definition set_own_IP (v : IPAddress) (st : State) : State :=
  mkState v (gateway_IP st) (subnet_IP st) (rxBuffer st) (txBuffer st)
    (rxSize st) (remote_IP st) (remote_PORT st) (sender_known st) (led st)
    (softAPIP st) (sta_gatewayIP st).

Definition set_gateway_IP (v : IPAddress) (st : State) : State :=
  mkState (own_IP st) v (subnet_IP st) (rxBuffer st) (txBuffer st)
    (rxSize st) (remote_IP st) (remote_PORT st) (sender_known st) (led st)
    (softAPIP st) (sta_gatewayIP st).

Definition set_subnet_IP (v : IPAddress) (st : State) : State :=
  mkState (own_IP st) (gateway_IP st) v (rxBuffer st) (txBuffer st)
    (rxSize st) (remote_IP st) (remote_PORT st) (sender_known st) (led st)
    (softAPIP st) (sta_gatewayIP st).

Definition set_rxBuffer (v : list Z) (st : State) : State :=
  mkState (own_IP st) (gateway_IP st) (subnet_IP st) v (txBuffer st)
    (rxSize st) (remote_IP st) (remote_PORT st) (sender_known st) (led st)
    (softAPIP st) (sta_gatewayIP st).

Definition set_txBuffer (v : list Z) (st : State) : State :=
  mkState (own_IP st) (gateway_IP st) (subnet_IP st) (rxBuffer st) v
    (rxSize st) (remote_IP st) (remote_PORT st) (sender_known st) (led st)
    (softAPIP st) (sta_gatewayIP st).

Definition set_rxSize (v : Z) (st : State) : State :=
  mkState (own_IP st) (gateway_IP st) (subnet_IP st) (rxBuffer st)
    (txBuffer st) v (remote_IP st) (remote_PORT st) (sender_known st)
    (led st) (softAPIP st) (sta_gatewayIP st).

Definition set_remote_IP (v : IPAddress) (st : State) : State :=
  mkState (own_IP st) (gateway_IP st) (subnet_IP st) (rxBuffer st)
    (txBuffer st) (rxSize st) v (remote_PORT st) (sender_known st) (led st)
    (softAPIP st) (sta_gatewayIP st).

Definition set_remote_PORT (v : Z) (st : State) : State :=
  mkState (own_IP st) (gateway_IP st) (subnet_IP st) (rxBuffer st)
    (txBuffer st) (rxSize st) (remote_IP st) v (sender_known st) (led st)
    (softAPIP st) (sta_gatewayIP st).

Definition set_sender_known (v : Z) (st : State) : State :=
  mkState (own_IP st) (gateway_IP st) (subnet_IP st) (rxBuffer st)
    (txBuffer st) (rxSize st) (remote_IP st) (remote_PORT st) v (led st)
    (softAPIP st) (sta_gatewayIP st).

Definition set_led (v : Z) (st : State) : State :=
  mkState (own_IP st) (gateway_IP st) (subnet_IP st) (rxBuffer st)
    (txBuffer st) (rxSize st) (remote_IP st) (remote_PORT st)
    (sender_known st) v (softAPIP st) (sta_gatewayIP st).

Definition set_softAPIP (v : IPAddress) (st : State) : State :=
  mkState (own_IP st) (gateway_IP st) (subnet_IP st) (rxBuffer st)
    (txBuffer st) (rxSize st) (remote_IP st) (remote_PORT st)
    (sender_known st) (led st) v (sta_gatewayIP st).

Definition set_sta_gatewayIP (v : IPAddress) (st : State) : State :=
  mkState (own_IP st) (gateway_IP st) (subnet_IP st) (rxBuffer st)
    (txBuffer st) (rxSize st) (remote_IP st) (remote_PORT st)
    (sender_known st) (led st) (softAPIP st) v.
Definition init_state : State :=
  mkState (mkIP 192 168 4 1) (mkIP 192 168 4 1) (mkIP 255 255 255 0)
    (replicate UDP_PACKET_SIZE 0) (replicate UDP_PACKET_SIZE 0) 0 ip_zero 0 0
    0 ip_zero ip_zero.

(** [setup]: initial delay, LED on, access point at [own_IP], socket
    open; the station side has no link, so [WiFi.gatewayIP()] is what
    the driver holds for it. *)
Definition setup (st : State) : State * list Event :=
  let st := set_led HIGH st in
  let ev :=
    [EvDelay WIFI_CONN_DELAY_MS;
     EvSoftAP AP_SSID AP_PASS (own_IP st) (gateway_IP st) (subnet_IP st);
     EvListen UDP_PORT] in
  let st := set_softAPIP (own_IP st) st in
  let st := set_gateway_IP (sta_gatewayIP st) st in
  (st, ev).

(** Loop of [fillBuffer]: the destination of the reply is the source
    field of the received packet, its source the access point. *)
Fixpoint fillBuffer_ips (i : nat) (st : State) (buf : list Z) : list Z :=
  match i with
  | O => buf
  | S i' =>
      fillBuffer_ips i' st
        (<[(i' + IP_len)%nat := ip_get (softAPIP st) i']>
           (<[i' := buf_at (rxBuffer st) (i' + IP_len)]> buf))
  end.

Definition fillBuffer (txBufferPtr : list Z) (st : State) : State :=
  set_txBuffer
    (<[(2 * IP_len)%nat := 66]> (fillBuffer_ips IP_len st txBufferPtr)) st.

(** One pass of [loop] on the datagram waiting on the socket, if any. *)
Definition loop (inbound : option Datagram) (st : State)
  : State * list Event :=
  match inbound with
  | Some d =>
      if Z.of_nat (length (dg_bytes d)) =? 0 then (st, [])
      else
        let '(buf, n) := UDP_read d (rxBuffer st) UDP_PACKET_SIZE in
        let st := set_rxSize n (set_rxBuffer buf st) in
        let st := set_remote_IP (dg_remoteIP d) st in
        let st := set_remote_PORT (dg_remotePort d) st in
        let st := set_sender_known 1 st in
        if sender_known st =? 0 then (st, [])
        else
          let st := fillBuffer (txBuffer st) st in
          (st, [UDP_send (remote_IP st) (remote_PORT st) (txBuffer st)
                  (Z.of_nat UDP_PACKET_SIZE)])
  | None => (st, [])
  end.

End BaseStation.

Module Client.

Definition WIFI_SSID : string := "MOTE2BS_ESP8266".
Definition WIFI_PASS : string := "MOTE2BS_ESP8266".
Definition WIFI_CONN_ATTEMPTS : Z := 20.
Definition tx_period : Z := 50.

(** The globals, [loop]'s statics and the driver's addresses. *)
Record State : Type := mkState {
  gateway_IP : IPAddress;
  rxBuffer : list Z;
  txBuffer : list Z;
  previousMillis : Z;
  msg_sent_cnt : Z;
  remote_IP : IPAddress;
  remote_PORT : Z;
  rxSize : Z;
  localIP : IPAddress;
  sta_gatewayIP : IPAddress
}.

Definition set_gateway_IP (v : IPAddress) (st : State) : State :=
  mkState v (rxBuffer st) (txBuffer st) (previousMillis st)
    (msg_sent_cnt st) (remote_IP st) (remote_PORT st) (rxSize st)
    (localIP st) (sta_gatewayIP st).

Definition set_rxBuffer (v : list Z) (st : State) : State :=
  mkState (gateway_IP st) v (txBuffer st) (previousMillis st)
    (msg_sent_cnt st) (remote_IP st) (remote_PORT st) (rxSize st)
    (localIP st) (sta_gatewayIP st).

Definition set_txBuffer (v : list Z) (st : State) : State :=
  mkState (gateway_IP st) (rxBuffer st) v (previousMillis st)
    (msg_sent_cnt st) (remote_IP st) (remote_PORT st) (rxSize st)
    (localIP st) (sta_gatewayIP st).

Definition set_previousMillis (v : Z) (st : State) : State :=
  mkState (gateway_IP st) (rxBuffer st) (txBuffer st) v (msg_sent_cnt st)
    (remote_IP st) (remote_PORT st) (rxSize st) (localIP st)
    (sta_gatewayIP st).

Definition set_msg_sent_cnt (v : Z) (st : State) : State :=
  mkState (gateway_IP st) (rxBuffer st) (txBuffer st) (previousMillis st) v
    (remote_IP st) (remote_PORT st) (rxSize st) (localIP st)
    (sta_gatewayIP st).

Definition set_remote_IP (v : IPAddress) (st : State) : State :=
  mkState (gateway_IP st) (rxBuffer st) (txBuffer st) (previousMillis st)
    (msg_sent_cnt st) v (remote_PORT st) (rxSize st) (localIP st)
    (sta_gatewayIP st).

Definition set_remote_PORT (v : Z) (st : State) : State :=
  mkState (gateway_IP st) (rxBuffer st) (txBuffer st) (previousMillis st)
    (msg_sent_cnt st) (remote_IP st) v (rxSize st) (localIP st)
    (sta_gatewayIP st).

Definition set_rxSize (v : Z) (st : State) : State :=
  mkState (gateway_IP st) (rxBuffer st) (txBuffer st) (previousMillis st)
    (msg_sent_cnt st) (remote_IP st) (remote_PORT st) v (localIP st)
    (sta_gatewayIP st).

Definition set_localIP (v : IPAddress) (st : State) : State :=
  mkState (gateway_IP st) (rxBuffer st) (txBuffer st) (previousMillis st)
    (msg_sent_cnt st) (remote_IP st) (remote_PORT st) (rxSize st) v
    (sta_gatewayIP st).

Definition set_sta_gatewayIP (v : IPAddress) (st : State) : State :=
  mkState (gateway_IP st) (rxBuffer st) (txBuffer st) (previousMillis st)
    (msg_sent_cnt st) (remote_IP st) (remote_PORT st) (rxSize st)
    (localIP st) v.
Definition init_state : State :=
  mkState ip_zero (replicate UDP_PACKET_SIZE 0) (replicate UDP_PACKET_SIZE 0)
    0 0 ip_zero 0 0 ip_zero ip_zero.

(** The connection loop of [setup], from poll [k] on with the counter
    at [num_of_tries]: [num_of_tries++ <= WIFI_CONN_ATTEMPTS] compares
    the old value, and the sleep request ends the session.  [fuel]
    bounds the number of polls looked at. *)
Fixpoint wait_connected (fuel : nat) (e : Env) (k : nat) (num_of_tries : Z)
  : option (list Event * Mode) :=
  match fuel with
  | O => None
  | S fuel' =>
      if wifi_status e k then Some ([], Active)
      else if num_of_tries <=? WIFI_CONN_ATTEMPTS then
        '(ev, m) ← wait_connected fuel' e (S k) (wrap8 (num_of_tries + 1));
        Some (EvDelay WIFI_CONN_DELAY_MS :: ev, m)
      else Some ([EvDeepSleep DEEP_SLEEP_US], Sleeping)
  end.

(** [setup]: initial delay, [WiFi.begin], the connection loop, then
    the socket and the gateway. *)
Definition setup (e : Env) (fuel : nat) (st : State)
  : option (State * list Event * Mode) :=
  let ev0 := [EvDelay WIFI_CONN_DELAY_MS; EvBegin WIFI_SSID WIFI_PASS] in
  '(ev, m) ← wait_connected fuel e 0 0;
  match m with
  | Sleeping => Some (st, ev0 ++ ev, Sleeping)
  | Active =>
      let st := set_localIP (dhcp_local e) st in
      let st := set_sta_gatewayIP (dhcp_gateway e) st in
      let st := set_gateway_IP (sta_gatewayIP st) st in
      Some (st, ev0 ++ ev ++ [EvListen UDP_PORT], Active)
  end.

Fixpoint fillBuffer_ips (i : nat) (st : State) (buf : list Z) : list Z :=
  match i with
  | O => buf
  | S i' =>
      fillBuffer_ips i' st
        (<[(i' + IP_len)%nat := ip_get (localIP st) i']>
           (<[i' := ip_get (gateway_IP st) i']> buf))
  end.

Definition fillBuffer (txBufferPtr : list Z) (st : State) : State :=
  set_txBuffer
    (<[(2 * IP_len)%nat := 110]> (fillBuffer_ips IP_len st txBufferPtr)) st.

Definition fires (inp : LoopInput) (st : State) : bool :=
  tx_period <=? wrap_ulong (millis1 inp - previousMillis st).

Definition loop (inp : LoopInput) (st : State) : State * list Event * Mode :=
  let st :=
    match inbound inp with
    | Some d =>
        if UDP_parsePacket inp =? 0 then st
        else
          let '(buf, n) := UDP_read d (rxBuffer st) UDP_PACKET_SIZE in
          let st := set_rxSize n (set_rxBuffer buf st) in
          let st := set_remote_IP (dg_remoteIP d) st in
          set_remote_PORT (dg_remotePort d) st
    | None => st
    end in
  let '(st, ev) :=
    if fires inp st then
      let st := set_previousMillis (millis2 inp) st in
      let st := set_msg_sent_cnt (wrap_int (msg_sent_cnt st + 1)) st in
      let st := fillBuffer (txBuffer st) st in
      (st, [UDP_send (gateway_IP st) UDP_PORT (txBuffer st)
              (Z.of_nat UDP_PACKET_SIZE)])
    else (st, []) in
  if msg_sent_cnt st =? MSG_SENT_MAX then
    (st, ev ++ [EvDeepSleep DEEP_SLEEP_US], Sleeping)
  else (st, ev, Active).

End Client.

(** ** Concrete peers for the session above *)

(** A leaf attached to the relay of [relay_env], with address
    192.168.6.7, and the base station after its [setup]. *)
Definition leaf_state : Client.State :=
  Client.mkState (mkIP 192 168 6 1) (replicate UDP_PACKET_SIZE 0)
    (replicate UDP_PACKET_SIZE 0) 0 0 ip_zero 0 0 (mkIP 192 168 6 7)
    (mkIP 192 168 6 1).

Definition bs_state : BaseStation.State :=
  Eval vm_compute in fst (BaseStation.setup BaseStation.init_state).

(** A second relay, attached to the first one, which gives it
    192.168.6.2: it owns 192.168.8.0/24. *)
Definition lower_env : Env :=
  mkEnv [("MOTE2BS_ESP8266"%string, -55)] (fun _ => true)
        (mkIP 192 168 6 2) (mkIP 192 168 6 1).

Definition lower_state : State :=
  Eval vm_compute in
  match setup lower_env 1 init_state with
  | Some (st, _, _) => st
  | None => init_state
  end.

Definition dgram_to_grandchild : Datagram :=
  mkDatagram [192; 168; 8; 5; 192; 168; 4; 1; 66] (mkIP 192 168 4 1) 4210.

(** ** Basic facts *)

(** Case analysis on every test of an if-chain. *)
Ltac case_ifs :=
  repeat match goal with
         | |- context [if ?b then _ else _] => destruct b
         end.

(** A list of literal bytes is a list of octets. *)
Ltac octets :=
  repeat (constructor; [unfold is_octet; cbn; lia|]); constructor.

Lemma ip_eqb_eq (a b : IPAddress) : ip_eqb a b = true <-> a = b.
Proof.
  destruct a, b; unfold ip_eqb; cbn.
  rewrite !andb_true_iff, !Z.eqb_eq. split.
  - intros [[[-> ->] ->] ->]; reflexivity.
  - intros [= -> -> -> ->]; auto.
Qed.

Lemma ip_eqb_neq (a b : IPAddress) : ip_eqb a b = false <-> a <> b.
Proof.
  rewrite <- ip_eqb_eq. destruct (ip_eqb a b); split; congruence.
Qed.

Lemma wrap8_octet (z : Z) : is_octet z -> wrap8 z = z.
Proof. unfold is_octet, wrap8; intros; apply Z.mod_small; lia. Qed.

Lemma nine_bytes (l : list Z) :
  length l = UDP_PACKET_SIZE ->
  exists b0 b1 b2 b3 b4 b5 b6 b7 b8, l = [b0; b1; b2; b3; b4; b5; b6; b7; b8].
Proof.
  unfold UDP_PACKET_SIZE; intros H.
  do 9 (destruct l as [|? l]; [discriminate H|]).
  destruct l; [|discriminate H]. repeat eexists.
Qed.

Lemma reachable_relay_state : Reachable relay_env relay_state.
Proof.
  apply (Reach_setup relay_env 2%nat relay_state
           (match setup relay_env 2 init_state with
            | Some (_, tr, _) => tr
            | None => []
            end)).
  vm_compute; reflexivity.
Qed.

(** ** The codec *)

Lemma parseMsg_decodes (bytes : list Z) (st : State) :
  rxMsg (parseMsg bytes st) =
    mkMsg (ip_set (ip_set (ip_set (ip_set (dstIP (rxMsg st))
             3 (buf_at bytes 3)) 2 (buf_at bytes 2)) 1 (buf_at bytes 1))
             0 (buf_at bytes 0))
          (ip_set (ip_set (ip_set (ip_set (srcIP (rxMsg st))
             3 (buf_at bytes 7)) 2 (buf_at bytes 6)) 1 (buf_at bytes 5))
             0 (buf_at bytes 4))
          [buf_at bytes 8].
Proof. reflexivity. Qed.

Lemma parseMsg_wf (bytes : list Z) (st : State) :
  length bytes = UDP_PACKET_SIZE -> Forall is_octet bytes ->
  rxMsg (parseMsg bytes st) =
    mkMsg (embedded_dst bytes) (embedded_src bytes) (drop 8 bytes).
Proof.
  intros Hlen Hoct. rewrite parseMsg_decodes.
  destruct (nine_bytes _ Hlen) as (b0&b1&b2&b3&b4&b5&b6&b7&b8&->).
  repeat (apply Forall_cons_1 in Hoct as [? Hoct]).
  unfold embedded_dst, embedded_src, ip_set, buf_at; cbn.
  rewrite !wrap8_octet by assumption. reflexivity.
Qed.

(** ** The forwarding engine *)

(** On a full-size datagram the receive buffer holds exactly the
    datagram, whatever it held before, and [forward] is this chain. *)
Lemma forward_cases (d : Datagram) (st : State) :
  wf_datagram d ->
  let dst := embedded_dst (dg_bytes d) in
  outbound d st =
    if ip_eqb (subnetOf (dg_remoteIP d)) (sub_network_IP st) then
      [EvSend (sup_gateway_IP st) (dg_remotePort d) (dg_bytes d)]
    else if ip_eqb dst (localIP (WiFi st)) then
      [EvActionUponRx (Z.of_nat UDP_PACKET_SIZE) (buf_at (dg_bytes d) 8)]
    else if ip_eqb (subnetOf dst) (sub_network_IP st) then
      [EvSend dst (dg_remotePort d) (dg_bytes d)]
    else [EvSend (sub_broadcast_IP st) (dg_remotePort d) (dg_bytes d)].
Proof.
  intros [Hlen Hoct] dst. subst dst.
  destruct d as [bytes rip rport]; cbn [dg_bytes dg_remoteIP dg_remotePort] in *.
  destruct (nine_bytes _ Hlen) as (b0&b1&b2&b3&b4&b5&b6&b7&b8&->).
  repeat (apply Forall_cons_1 in Hoct as [? Hoct]).
  unfold outbound, forward, UDP_read, UDP_send, actionUponRx, subnetOf,
    embedded_dst, buf_at.
  cbn -[ip_eqb Z.of_nat wrap8].
  change (wrap8 0) with 0. rewrite !wrap8_octet by assumption.
  rewrite Nat2Z.id.
  case_ifs; reflexivity.
Qed.

Lemma applies_exclusive (self : State -> IPAddress) (d : Datagram)
    (st : State) (c c' : Case) :
  applies_with self c d st -> applies_with self c' d st -> c = c'.
Proof. destruct c, c'; cbn; intros; try reflexivity; tauto. Qed.

Lemma ip_eq_dec (a b : IPAddress) : a = b \/ a <> b.
Proof.
  destruct (ip_eqb a b) eqn:E; [left; apply ip_eqb_eq | right; apply ip_eqb_neq];
    exact E.
Qed.

Lemma applies_total (self : State -> IPAddress) (d : Datagram) (st : State) :
  exists c, applies_with self c d st.
Proof.
  destruct (ip_eq_dec (subnetOf (dg_remoteIP d)) (sub_network_IP st));
    [exists CaseA; assumption|].
  destruct (ip_eq_dec (embedded_dst (dg_bytes d)) (self st));
    [exists CaseB; split; assumption|].
  destruct (ip_eq_dec (subnetOf (embedded_dst (dg_bytes d))) (sub_network_IP st));
    [exists CaseC | exists CaseD]; cbn; auto.
Qed.

(** What [forward] emits in each case. *)
Lemma forward_by_case (c : Case) (d : Datagram) (st : State) :
  wf_datagram d -> applies c d st ->
  outbound d st =
    match c with
    | CaseA => [EvSend (sup_gateway_IP st) (dg_remotePort d) (dg_bytes d)]
    | CaseB =>
        [EvActionUponRx (Z.of_nat UDP_PACKET_SIZE) (buf_at (dg_bytes d) 8)]
    | CaseC =>
        [EvSend (embedded_dst (dg_bytes d)) (dg_remotePort d) (dg_bytes d)]
    | CaseD => [EvSend (sub_broadcast_IP st) (dg_remotePort d) (dg_bytes d)]
    end.
Proof.
  intros Hwf Hc. rewrite (forward_cases d st Hwf); cbv zeta.
  destruct c; cbv [applies applies_with uplink_address] in Hc.
  - apply ip_eqb_eq in Hc. rewrite Hc. reflexivity.
  - destruct Hc as [Ha Hb]. apply ip_eqb_neq in Ha. apply ip_eqb_eq in Hb.
    rewrite Ha, Hb. reflexivity.
  - destruct Hc as (Ha & Hb & Hc). apply ip_eqb_neq in Ha, Hb.
    apply ip_eqb_eq in Hc. rewrite Ha, Hb, Hc. reflexivity.
  - destruct Hc as (Ha & Hb & Hc). apply ip_eqb_neq in Ha, Hb, Hc.
    rewrite Ha, Hb, Hc. reflexivity.
Qed.

(** Whatever the size of the datagram, a packet [forward] sends carries
    the bytes that were read, at most [UDP_PACKET_SIZE] of them, and
    goes to the port of the sender. *)
Lemma forward_payload_unchanged (d : Datagram) (st : State) (ev : Event) :
  In ev (outbound d st) -> is_send ev = true ->
  exists dst,
    ev = EvSend dst (dg_remotePort d) (take UDP_PACKET_SIZE (dg_bytes d)).
Proof.
  unfold outbound, forward, UDP_read, UDP_send.
  case_ifs; cbn [snd In rxSize rxBuffer remote_PORT set_dstnet_IP
                   set_sendernet_IP set_remote_PORT parseMsg set_rxMsg
                   set_rxSize set_rxBuffer];
    rewrite ?Nat2Z.id, ?take_app_length; intros [<-|[]]; try discriminate;
    intros _; eexists; reflexivity.
Qed.

(** ** Frame of the main loop *)

Lemma with_scratch_self (st : State) : with_scratch st st = st.
Proof. destruct st; reflexivity. Qed.

Lemma with_scratch_trans (a b st : State) :
  with_scratch a (with_scratch b st) = with_scratch a st.
Proof. reflexivity. Qed.

Lemma forward_frame (d : Datagram) (st : State) :
  fst (forward d st) = with_scratch (fst (forward d st)) st.
Proof.
  unfold forward, UDP_read.
  case_ifs; reflexivity.
Qed.

(** [forward] leaves the transmit side and the timer alone. *)
Lemma forward_keeps (d : Datagram) (st : State) :
  let st' := fst (forward d st) in
  txBuffer st' = txBuffer st /\ previousMillis st' = previousMillis st /\
  msg_sent_cnt st' = msg_sent_cnt st.
Proof.
  unfold forward, UDP_read.
  case_ifs; cbn; auto.
Qed.

Lemma telemetry_frame (inp : LoopInput) (st : State) :
  fst (telemetry inp st) = with_scratch (fst (telemetry inp st)) st.
Proof. reflexivity. Qed.

Lemma receive_frame (inp : LoopInput) (st : State) :
  fst (receive inp st) = with_scratch (fst (receive inp st)) st.
Proof.
  unfold receive. destruct (inbound inp) as [d|].
  - destruct (UDP_parsePacket inp =? 0); cbn [fst].
    + symmetry; apply with_scratch_self.
    + apply forward_frame.
  - symmetry; apply with_scratch_self.
Qed.

Lemma receive_keeps (inp : LoopInput) (st : State) :
  let st' := fst (receive inp st) in
  txBuffer st' = txBuffer st /\ previousMillis st' = previousMillis st /\
  msg_sent_cnt st' = msg_sent_cnt st.
Proof.
  unfold receive. destruct (inbound inp) as [d|]; [|cbn; auto].
  destruct (UDP_parsePacket inp =? 0); [cbn; auto|apply forward_keeps].
Qed.

(** [loop] in terms of its three steps. *)
Lemma loop_unfold (inp : LoopInput) (st : State) :
  loop inp st =
    let st1 := fst (receive inp st) in
    let ev1 := snd (receive inp st) in
    let r := if fires inp st then telemetry inp st1 else (st1, []) in
    if msg_sent_cnt (fst r) =? MSG_SENT_MAX then
      (fst r, ev1 ++ snd r ++ [EvDeepSleep DEEP_SLEEP_US], Sleeping)
    else (fst r, ev1 ++ snd r, Active).
Proof.
  unfold loop. fold (receive inp st).
  destruct (receive_keeps inp st) as (_ & Hp & _).
  destruct (receive inp st) as [st1 ev1]; cbn [fst snd] in *.
  unfold fires at 1. rewrite Hp. fold (fires inp st).
  destruct (fires inp st); [destruct (telemetry inp st1)|]; reflexivity.
Qed.

Lemma loop_frame (inp : LoopInput) (st : State) :
  fst (fst (loop inp st)) = with_scratch (fst (fst (loop inp st))) st.
Proof.
  rewrite loop_unfold; cbv zeta.
  assert (H : forall r : State * list Event,
             r = (if fires inp st then telemetry inp (fst (receive inp st))
                  else (fst (receive inp st), [])) ->
             fst r = with_scratch (fst r) st).
  { intros r ->. destruct (fires inp st); cbn [fst].
    - transitivity
        (with_scratch (fst (telemetry inp (fst (receive inp st))))
           (with_scratch (fst (receive inp st)) st)); [|reflexivity].
      rewrite <- receive_frame. apply telemetry_frame.
    - apply receive_frame. }
  specialize (H _ eq_refl).
  destruct (msg_sent_cnt _ =? MSG_SENT_MAX); cbn [fst]; exact H.
Qed.

(** The send counter after a pass. *)
Lemma loop_counter (inp : LoopInput) (st : State) :
  msg_sent_cnt (fst (fst (loop inp st))) =
    if fires inp st then wrap_int (msg_sent_cnt st + 1) else msg_sent_cnt st.
Proof.
  rewrite loop_unfold; cbv zeta.
  destruct (receive_keeps inp st) as (_ & _ & Hc).
  assert (H : msg_sent_cnt
                (fst (if fires inp st
                      then telemetry inp (fst (receive inp st))
                      else (fst (receive inp st), []))) =
              if fires inp st then wrap_int (msg_sent_cnt st + 1)
              else msg_sent_cnt st).
  { destruct (fires inp st); cbn; rewrite Hc; reflexivity. }
  destruct (msg_sent_cnt _ =? MSG_SENT_MAX); cbn [fst]; exact H.
Qed.

(** A pass ends asleep exactly when the counter it leaves is the
    maximum. *)
Lemma loop_mode (inp : LoopInput) (st : State) :
  snd (loop inp st) = Sleeping <->
  msg_sent_cnt (fst (fst (loop inp st))) = MSG_SENT_MAX.
Proof.
  rewrite loop_unfold; cbv zeta.
  destruct (msg_sent_cnt _ =? MSG_SENT_MAX) eqn:E; cbn [fst snd].
  - apply Z.eqb_eq in E. tauto.
  - apply Z.eqb_neq in E. split; [discriminate | contradiction].
Qed.

Lemma wrap_int_small (z : Z) : - 2 ^ 31 <= z <= INT_MAX -> wrap_int z = z.
Proof.
  unfold wrap_int, INT_MAX. intros H.
  rewrite Z.mod_small by lia. lia.
Qed.

Lemma fillBuffer_length (buf : list Z) (st : State) :
  length (txBuffer (fillBuffer buf st)) = length buf.
Proof.
  unfold fillBuffer; cbn. rewrite !length_insert. reflexivity.
Qed.

Lemma loop_txlen (inp : LoopInput) (st : State) :
  length (txBuffer st) = UDP_PACKET_SIZE ->
  length (txBuffer (fst (fst (loop inp st)))) = UDP_PACKET_SIZE.
Proof.
  intros Hl. rewrite loop_unfold; cbv zeta.
  destruct (receive_keeps inp st) as (Ht & _ & _).
  assert (H : length (txBuffer
                (fst (if fires inp st
                      then telemetry inp (fst (receive inp st))
                      else (fst (receive inp st), [])))) = UDP_PACKET_SIZE).
  { destruct (fires inp st); cbn [fst].
    - unfold telemetry; cbn [fst]. rewrite fillBuffer_length. cbn.
      rewrite Ht. exact Hl.
    - rewrite Ht. exact Hl. }
  destruct (msg_sent_cnt _ =? MSG_SENT_MAX); cbn [fst]; exact H.
Qed.

(** ** Link formation and the session invariant *)

Lemma wait_connected_some (e : Env) (fuel j k : nat) :
  wifi_status e (k + j)%nat = true -> (j < fuel)%nat ->
  exists delays, wait_connected fuel e k = Some delays.
Proof.
  revert j k. induction fuel as [|fuel IH]; intros j k Hs Hlt; [lia|].
  cbn. destruct (wifi_status e k) eqn:Ek; [eauto|].
  destruct j as [|j].
  - rewrite Nat.add_0_r in Hs. congruence.
  - destruct (IH j (S k)) as [dl Hdl]; [|lia|].
    + rewrite <- Hs. f_equal. lia.
    + rewrite Hdl. cbn. eauto.
Qed.

Lemma wait_connected_delays (e : Env) (fuel k : nat) (delays : list Event) :
  wait_connected fuel e k = Some delays ->
  Forall (fun ev => ev = EvDelay WIFI_CONN_DELAY_MS) delays.
Proof.
  revert k delays. induction fuel as [|fuel IH]; intros k delays; cbn;
    [discriminate|].
  destruct (wifi_status e k).
  - intros [= <-]. constructor.
  - destruct (wait_connected fuel e (S k)) as [dl|] eqn:E; cbn;
      [|discriminate].
    intros [= <-]. constructor; [reflexivity | eapply IH; eassumption].
Qed.

Lemma createLink_inv (e : Env) (fuel idx : nat) (st st' : State)
    (tr : list Event) :
  createLink e fuel idx st = Some (st', tr) ->
  st' = link_state e st /\
  exists delays,
    wait_connected fuel e 0 = Some delays /\
    tr = [EvDisconnect;
          if connectToBS st then EvBegin BS_SSID BS_PASS
          else EvBegin (SSID e idx) MOTE2BS_PASS] ++ delays.
Proof.
  unfold createLink.
  destruct (wait_connected fuel e 0) as [delays|]; cbn; [|discriminate].
  intros [= <- <-]. split; [reflexivity | eauto].
Qed.

Lemma createLink_some (e : Env) (fuel idx k : nat) (st : State) :
  wifi_status e k = true -> (k < fuel)%nat ->
  exists tr, createLink e fuel idx st = Some (link_state e st, tr).
Proof.
  intros Hs Hlt. destruct (wait_connected_some e fuel k 0 Hs Hlt) as [dl Hdl].
  unfold createLink. rewrite Hdl. cbn. eauto.
Qed.

Lemma land_255 (z : Z) : is_octet z -> Z.land z 255 = z.
Proof.
  intros H. change 255 with (Z.ones 8). rewrite Z.land_ones by lia.
  apply Z.mod_small. exact H.
Qed.

Lemma wrap8_is_octet (z : Z) : is_octet (wrap8 z).
Proof. unfold is_octet, wrap8. apply Z.mod_pos_bound. lia. Qed.

(** What [setup] leaves when it returns awake. *)
Lemma setup_active (e : Env) (fuel : nat) (st : State) (tr : list Event) :
  setup e fuel init_state = Some (st, tr, Active) ->
  exists flag,
    st = fst (setup_ap (link_state e (set_connectToBS flag init_state))).
Proof.
  unfold setup.
  destruct (find_BS e (length (scan e))) as [i|].
  - destruct (createLink e fuel 0 (set_connectToBS true init_state))
      as [[st1 ev1]|] eqn:E; cbn; [|discriminate].
    apply createLink_inv in E as [-> _]. cbn.
    intros [= <- _]. exists true. reflexivity.
  - cbn.
    destruct (find_MOTE2BS e (length (scan e)) (-1) (-1000) false)
      as [[idx r] flag].
    destruct (0 <=? idx); cbn; [|discriminate].
    destruct (createLink e fuel (Z.to_nat idx) (set_connectToBS flag init_state))
      as [[st1 ev1]|] eqn:E; cbn; [|discriminate].
    apply createLink_inv in E as [-> _].
    intros [= <- _]. exists flag. reflexivity.
Qed.

Lemma setup_inv (e : Env) (fuel : nat) (st : State) (tr : list Event) :
  setup e fuel init_state = Some (st, tr, Active) -> Inv e st.
Proof.
  intros H. apply setup_active in H as [flag ->].
  unfold Inv. cbn. repeat split; try reflexivity; try lia.
Qed.

Lemma loop_inv (e : Env) (inp : LoopInput) (st st' : State)
    (tr : list Event) :
  Inv e st -> loop inp st = (st', tr, Active) -> Inv e st'.
Proof.
  intros (Hw & Ho & Hg & Hsg & Hm & Hn & Hb & Hl & Hc) Hloop.
  pose proof (loop_frame inp st) as Hf.
  pose proof (loop_counter inp st) as Hcnt.
  pose proof (loop_mode inp st) as Hmode.
  pose proof (loop_txlen inp st Hl) as Hlen.
  rewrite Hloop in Hf, Hcnt, Hmode, Hlen; cbn [fst snd] in *.
  assert (Hne : msg_sent_cnt st' <> MSG_SENT_MAX)
    by (intros E; apply Hmode in E; discriminate).
  unfold Inv. rewrite Hf; cbn.
  repeat split; try assumption.
  - destruct (fires inp st); [|lia].
    rewrite wrap_int_small in Hcnt by (unfold INT_MAX, MSG_SENT_MAX in *; lia).
    lia.
  - destruct (fires inp st); [|unfold MSG_SENT_MAX in *; lia].
    rewrite wrap_int_small in Hcnt by (unfold INT_MAX, MSG_SENT_MAX in *; lia).
    unfold MSG_SENT_MAX in *; lia.
Qed.

Lemma Reachable_inv (e : Env) (st : State) : Reachable e st -> Inv e st.
Proof.
  induction 1 as [fuel st tr H | st inp st' tr _ IH H].
  - eapply setup_inv; eassumption.
  - eapply loop_inv; eassumption.
Qed.

(** ** Discovery *)

Section Discovery.

Variable e : Env.

Lemma find_BS_none (i : nat) :
  find_BS e i = None <-> forall j, (j < i)%nat -> SSID e j <> BS_SSID.
Proof.
  induction i as [|i IH]; cbn.
  - split; [intros _ j Hj; lia | reflexivity].
  - destruct (String.eqb_spec (SSID e i) BS_SSID) as [Heq|Hne].
    + split; [discriminate|]. intros H. destruct (H i); [lia | exact Heq].
    + rewrite IH. split; intros H j Hj.
      * destruct (decide (j = i)) as [->|]; [exact Hne | apply H; lia].
      * apply H; lia.
Qed.

Lemma find_BS_some (i j : nat) :
  (j < i)%nat -> SSID e j = BS_SSID -> exists k, find_BS e i = Some k.
Proof.
  intros Hj Hs. destruct (find_BS e i) as [k|] eqn:E; [eauto|].
  exfalso. exact (proj1 (find_BS_none i) E j Hj Hs).
Qed.

Lemma best_below_step (i k : nat) (r : Z) :
  best_below e i k r ->
  (SSID e i = MOTE2BS_SSID -> RSSI e i <= r /\ ((k < i)%nat -> RSSI e i < r)) ->
  best_below e (S i) k r.
Proof.
  intros Hb Hi j Hj Hs.
  destruct (decide (j = i)) as [->|Hne]; [auto | apply Hb; [lia | exact Hs]].
Qed.

Lemma all_below_step (i : nat) (r : Z) :
  (forall j, (j < i)%nat -> SSID e j = MOTE2BS_SSID -> RSSI e j <= r) ->
  (SSID e i = MOTE2BS_SSID -> RSSI e i <= r) ->
  forall j, (j < S i)%nat -> SSID e j = MOTE2BS_SSID -> RSSI e j <= r.
Proof.
  intros Hb Hi j Hj Hs.
  destruct (decide (j = i)) as [->|Hne]; [auto | apply Hb; [lia | exact Hs]].
Qed.

Lemma find_MOTE2BS_spec (i : nat) (idx rssi : Z) (flag : bool) :
  let r := find_MOTE2BS e i idx rssi flag in
  (fst (fst r) = idx /\ snd (fst r) = rssi /\
   forall j, (j < i)%nat -> SSID e j = MOTE2BS_SSID -> RSSI e j <= rssi)
  \/
  (exists k, (k < i)%nat /\ fst (fst r) = Z.of_nat k /\
             SSID e k = MOTE2BS_SSID /\ RSSI e k = snd (fst r) /\
             rssi < snd (fst r) /\ best_below e i k (snd (fst r))).
Proof.
  revert idx rssi flag. induction i as [|i IH]; intros idx rssi flag; cbn.
  - left. repeat split. intros j Hj; lia.
  - destruct (String.eqb_spec (SSID e i) MOTE2BS_SSID) as [Hrel|Hnot].
    + destruct (rssi <? RSSI e i) eqn:Hcmp.
      * apply Z.ltb_lt in Hcmp. right.
        destruct (IH (Z.of_nat i) (RSSI e i) false)
          as [(Hi & Hr & Hall) | (k & Hk & Hi & Hs & Hr & Hlt & Hbest)].
        -- exists i. rewrite Hi, Hr.
           split; [lia|]. do 4 (split; [assumption || reflexivity|]).
           intros j Hj Hsj. destruct (decide (j = i)) as [->|Hne]; [lia|].
           split; [apply Hall; [lia | exact Hsj] | lia].
        -- exists k. rewrite Hi.
           split; [lia|]. do 3 (split; [assumption || reflexivity|]).
           split; [lia|]. apply best_below_step; [exact Hbest|]. lia.
      * apply Z.ltb_ge in Hcmp.
        destruct (IH idx rssi false)
          as [(Hi & Hr & Hall) | (k & Hk & Hi & Hs & Hr & Hlt & Hbest)].
        -- left. do 2 (split; [assumption|]).
           apply all_below_step; [exact Hall | lia].
        -- right. exists k. rewrite Hi.
           split; [lia|]. do 4 (split; [assumption || reflexivity|]).
           apply best_below_step; [exact Hbest|]. lia.
    + destruct (IH idx rssi flag)
        as [(Hi & Hr & Hall) | (k & Hk & Hi & Hs & Hr & Hlt & Hbest)].
      * left. do 2 (split; [assumption|]).
        apply all_below_step; [exact Hall | contradiction].
      * right. exists k. rewrite Hi.
        split; [lia|]. do 4 (split; [assumption || reflexivity|]).
        apply best_below_step; [exact Hbest | contradiction].
Qed.

(** The three outcomes of [discovery], by what the scan holds. *)
Lemma discovery_root (i : nat) :
  (i < length (scan e))%nat -> SSID e i = BS_SSID ->
  discovery e = ConnectAsRootClient.
Proof.
  intros Hi Hs. unfold discovery.
  destruct (find_BS_some _ i Hi Hs) as [k ->]. reflexivity.
Qed.

Lemma discovery_no_root :
  (forall i, (i < length (scan e))%nat -> SSID e i <> BS_SSID) ->
  (discovery e = NoUplinkFound /\
   forall j, (j < length (scan e))%nat -> SSID e j = MOTE2BS_SSID ->
             RSSI e j <= -1000)
  \/
  (exists k, discovery e = ConnectViaRelay k /\ (k < length (scan e))%nat /\
             SSID e k = MOTE2BS_SSID /\ -1000 < RSSI e k /\
             best_below e (length (scan e)) k (RSSI e k)).
Proof.
  intros Hno. apply find_BS_none in Hno. unfold discovery. rewrite Hno.
  pose proof (find_MOTE2BS_spec (length (scan e)) (-1) (-1000) false) as H.
  destruct (find_MOTE2BS e (length (scan e)) (-1) (-1000) false)
    as [[idx r] flag]; cbn [fst snd] in H.
  destruct H as [(-> & -> & Hall) | (k & Hk & -> & Hs & Hr & Hlt & Hbest)].
  - left. split; [reflexivity | exact Hall].
  - right. exists k. replace (0 <=? Z.of_nat k) with true
      by (symmetry; apply Z.leb_le; lia).
    rewrite Nat2Z.id, Hr.
    split; [reflexivity|]. split; [exact Hk|]. split; [exact Hs|].
    split; [exact Hlt | exact Hbest].
Qed.

End Discovery.

(** ** Telemetry and the session *)

Lemma telemetry_send (inp : LoopInput) (st : State) :
  length (txBuffer st) = UDP_PACKET_SIZE ->
  snd (telemetry inp st) =
    [EvSend (sup_gateway_IP st) UDP_PORT
       (telemetry_packet (uplink_address st) st)].
Proof.
  intros Hl.
  destruct (nine_bytes _ Hl) as (t0&t1&t2&t3&t4&t5&t6&t7&t8&Ht).
  unfold telemetry, fillBuffer, UDP_send, telemetry_packet, uplink_address.
  cbn [snd fst]. rewrite Nat2Z.id.
  destruct st; cbn in *. subst. reflexivity.
Qed.

Lemma receive_no_sleep (inp : LoopInput) (st : State) :
  count_ev is_sleep (snd (receive inp st)) = 0%nat.
Proof.
  unfold receive. destruct (inbound inp) as [d|]; [|reflexivity].
  destruct (UDP_parsePacket inp =? 0); [reflexivity|].
  unfold forward, UDP_read.
  case_ifs; reflexivity.
Qed.

(** The events of a pass: forwarding, then telemetry if the timer
    fired, then the sleep request if the pass ends asleep. *)
Lemma loop_events (inp : LoopInput) (st : State) :
  snd (fst (loop inp st)) =
    snd (receive inp st)
    ++ (if fires inp st then snd (telemetry inp (fst (receive inp st)))
        else [])
    ++ (match snd (loop inp st) with
        | Sleeping => [EvDeepSleep DEEP_SLEEP_US]
        | Active => []
        end).
Proof.
  rewrite loop_unfold; cbv zeta.
  destruct (msg_sent_cnt _ =? MSG_SENT_MAX); cbn [fst snd];
    destruct (fires inp st); cbn [fst snd]; rewrite ?app_nil_r; reflexivity.
Qed.

Lemma count_ev_app (p : Event -> bool) (a b : list Event) :
  count_ev p (a ++ b) = (count_ev p a + count_ev p b)%nat.
Proof. unfold count_ev. rewrite filter_app, length_app. reflexivity. Qed.

Lemma count_fired_cons (f : bool) (ev : list Event) (m : Mode)
    (log : list (bool * list Event * Mode)) :
  count_fired ((f, ev, m) :: log) = (if f then 1 else 0) + count_fired log.
Proof.
  unfold count_fired. rewrite filter_cons. cbn [fst].
  destruct f; case_decide; try congruence; cbn [length]; lia.
Qed.

Lemma session_cons (inp : LoopInput) (rest : list LoopInput) (st : State) :
  session (inp :: rest) st =
    (fires inp st, snd (fst (loop inp st)), snd (loop inp st)) ::
      match snd (loop inp st) with
      | Sleeping => []
      | Active => session rest (fst (fst (loop inp st)))
      end.
Proof. cbn. destruct (loop inp st) as [[st' ev] m]. reflexivity. Qed.

(** The counter after a pass, for a counter below the maximum. *)
Lemma loop_counter_small (inp : LoopInput) (st : State) :
  0 <= msg_sent_cnt st < MSG_SENT_MAX ->
  msg_sent_cnt (fst (fst (loop inp st))) =
    msg_sent_cnt st + (if fires inp st then 1 else 0).
Proof.
  intros H. rewrite loop_counter. destruct (fires inp st); [|lia].
  apply wrap_int_small. unfold INT_MAX, MSG_SENT_MAX in *. lia.
Qed.

Lemma session_spec (inps : list LoopInput) :
  forall (st : State) (k : nat) (f : bool) (ev : list Event) (m : Mode),
    0 <= msg_sent_cnt st < MSG_SENT_MAX ->
    session inps st !! k = Some (f, ev, m) ->
    (m = Sleeping <->
     f = true /\
     msg_sent_cnt st + count_fired (take (S k) (session inps st))
       = MSG_SENT_MAX) /\
    (m = Sleeping ->
     length (session inps st) = S k /\
     exists ev1 dst pkt,
       ev = ev1 ++ [EvSend dst UDP_PORT pkt; EvDeepSleep DEEP_SLEEP_US]) /\
    (m = Active -> count_ev is_sleep ev = 0%nat).
Proof.
  induction inps as [|inp rest IH]; intros st k f ev m Hc Hk;
    [discriminate Hk|].
  rewrite session_cons in *.
  pose proof (loop_counter_small inp st Hc) as Hcnt.
  pose proof (loop_mode inp st) as Hmode.
  pose proof (loop_events inp st) as Hev.
  destruct k as [|k].
  - cbn in Hk. injection Hk as <- <- <-.
    cbn [take]. rewrite count_fired_cons.
    change (count_fired (take 0 _)) with 0.
    split; [|split].
    + rewrite Hmode, Hcnt. destruct (fires inp st); unfold MSG_SENT_MAX in *;
        split; intros; try split; try reflexivity; try lia.
    + intros Hs. rewrite Hs in *. split; [reflexivity|].
      assert (Hf : fires inp st = true).
      { apply proj1 in Hmode. specialize (Hmode eq_refl).
        rewrite Hcnt in Hmode. destruct (fires inp st); [reflexivity|].
        unfold MSG_SENT_MAX in *; lia. }
      rewrite Hf in Hev. rewrite Hev. unfold telemetry; cbn [snd].
      unfold UDP_send. rewrite app_assoc.
      eexists _, _, _. rewrite <- app_assoc. reflexivity.
    + intros Ha. rewrite Ha in Hev. rewrite Hev, !count_ev_app.
      rewrite receive_no_sleep. destruct (fires inp st); reflexivity.
  - cbn [lookup list_lookup] in Hk.
    destruct (snd (loop inp st)) eqn:Em; [|discriminate Hk].
    assert (Hc' : 0 <= msg_sent_cnt (fst (fst (loop inp st))) < MSG_SENT_MAX).
    { assert (msg_sent_cnt (fst (fst (loop inp st))) <> MSG_SENT_MAX)
        by (intros E; apply Hmode in E; discriminate).
      rewrite Hcnt in *. destruct (fires inp st); lia. }
    destruct (IH _ k f ev m Hc' Hk) as (H1 & H2 & H3).
    cbn [take]. rewrite count_fired_cons. split; [|split].
    + rewrite H1, Hcnt. split; intros [? ?]; split; try assumption; lia.
    + intros Hs. destruct (H2 Hs) as [Hl Hx]. split; [|exact Hx].
      cbn [length]. rewrite Hl. reflexivity.
    + exact H3.
Qed.

(** * The claims *)

(** ** Forwarding engine *)

(** The address derived for the own access point is never the address
    the node has on its uplink. *)
Lemma own_IP_not_uplink_address (e : Env) (st : State) :
  Reachable e st -> own_IP st <> uplink_address st.
Proof.
  intros H. apply Reachable_inv in H as (Hw & Ho & _).
  unfold uplink_address. rewrite Hw, Ho; cbn.
  destruct (dhcp_local e) as [l0 l1 l2 l3]; cbn. intros Heq.
  assert (H3 : 1 = l3) by exact (f_equal ip3 Heq).
  assert (H2 : wrap8 (l2 + l3) = l2) by exact (f_equal ip2 Heq).
  subst l3. unfold wrap8 in H2.
  pose proof (Z.mod_pos_bound (l2 + 1) 256 ltac:(lia)) as Hm.
  destruct (Z.eq_dec l2 255) as [->|Hne]; [discriminate H2|].
  rewrite Z.mod_small in H2 by lia. lia.
Qed.

(** C1 (as amended): for every 9-byte inbound packet and every node
    state exactly one of the cases a (sender subnet is the downstream
    subnet), b (embedded destination is the node's address on its
    uplink), c (destination subnet is the downstream subnet), d
    (otherwise) applies, in that priority order, and the number of
    packets sent is one in cases a, c, d and zero in case b. *)
Theorem classification_total_exclusive (d : Datagram) (st : State) :
  wf_datagram d ->
  exists c,
    applies c d st /\
    (forall c', applies c' d st -> c' = c) /\
    count_ev is_send (outbound d st) =
      match c with CaseB => 0%nat | _ => 1%nat end.
Proof.
  intros Hwf. destruct (applies_total uplink_address d st) as [c Hc].
  exists c. split; [exact Hc|]. split.
  - intros c' Hc'. exact (applies_exclusive _ _ _ _ _ Hc' Hc).
  - rewrite (forward_by_case c d st Hwf Hc). destruct c; reflexivity.
Qed.

Lemma wf_dgram_from_child : wf_datagram dgram_from_child.
Proof.
  split; [reflexivity|].
  octets.
Defined.

Lemma classification_total_exclusive_witness :
  wf_datagram dgram_from_child /\
  classification_claim uplink_address dgram_from_child relay_state.
Proof.
  split; [exact wf_dgram_from_child|].
  exact (classification_total_exclusive dgram_from_child relay_state
           wf_dgram_from_child).
Defined.

(** C1 as stated fails: with "addressed to this node" read as
    "destination is ownAddress", a packet from the base station whose
    destination is the derived address 192.168.6.1 is in case b, yet
    the node sends one packet. *)
Lemma classification_by_ownAddress_fails :
  ~ classification_claim own_IP dgram_to_own_from_uplink relay_state.
Proof.
  intros (c & Hc & Huniq & Hcount).
  assert (HB : applies_with own_IP CaseB dgram_to_own_from_uplink relay_state).
  { split; [discriminate | reflexivity]. }
  rewrite <- (Huniq CaseB HB) in Hcount. vm_compute in Hcount.
  discriminate Hcount.
Qed.

(** C2 (as amended): a 9-byte packet whose sender is not in the
    downstream subnet and whose embedded destination is the node's
    address on its uplink is handed to [actionUponRx], and no packet is
    sent. *)
Theorem local_delivery (d : Datagram) (st : State) :
  wf_datagram d ->
  subnetOf (dg_remoteIP d) <> sub_network_IP st ->
  embedded_dst (dg_bytes d) = uplink_address st ->
  outbound d st =
    [EvActionUponRx (Z.of_nat UDP_PACKET_SIZE) (buf_at (dg_bytes d) 8)] /\
  count_ev is_deliver (outbound d st) = 1%nat /\
  count_ev is_send (outbound d st) = 0%nat.
Proof.
  intros Hwf Ha Hb.
  assert (Hc : applies CaseB d st) by (split; assumption).
  rewrite (forward_by_case CaseB d st Hwf Hc). repeat split.
Qed.

Lemma local_delivery_witness :
  wf_datagram dgram_to_uplink_address /\
  subnetOf (dg_remoteIP dgram_to_uplink_address) <> sub_network_IP relay_state /\
  embedded_dst (dg_bytes dgram_to_uplink_address) = uplink_address relay_state /\
  outbound dgram_to_uplink_address relay_state = [EvActionUponRx 9 66].
Proof.
  assert (Hwf : wf_datagram dgram_to_uplink_address).
  { split; [reflexivity|].
    octets. }
  assert (Ha : subnetOf (dg_remoteIP dgram_to_uplink_address)
               <> sub_network_IP relay_state) by discriminate.
  split; [exact Hwf|]. split; [exact Ha|]. split; [reflexivity|].
  exact (proj1 (local_delivery dgram_to_uplink_address relay_state Hwf Ha
                  eq_refl)).
Defined.

(** C2 as stated fails: a packet from the uplink side whose destination
    is ownAddress, 192.168.6.1, is not delivered locally; it is sent
    on. *)
Lemma local_delivery_to_ownAddress_fails :
  ~ local_delivery_claim own_IP dgram_to_own_from_station relay_state.
Proof.
  intros H. destruct H as [_ H]; [discriminate | reflexivity |].
  vm_compute in H. discriminate H.
Qed.

(** C3 (as amended): in a session whose uplink address is well formed,
    a 9-byte packet in case a, c or d, the cases being those of C1 as
    amended (case b is "the embedded destination is the node's address
    on its uplink"), is sent on with its bytes unchanged, to the port
    of its sender; in case a to the upstream neighbour (the gateway of
    the uplink), in case c to the embedded destination, in case d to
    the downstream prefix with host octet 255. *)
Theorem forwarding_targets (e : Env) (st : State) (d : Datagram) :
  Reachable e st -> ip_wf (dhcp_local e) -> wf_datagram d ->
  (applies CaseA d st ->
   outbound d st = [EvSend (sup_gateway_IP st) (dg_remotePort d) (dg_bytes d)]
   /\ sup_gateway_IP st = dhcp_gateway e) /\
  (applies CaseC d st ->
   outbound d st =
     [EvSend (embedded_dst (dg_bytes d)) (dg_remotePort d) (dg_bytes d)]) /\
  (applies CaseD d st ->
   outbound d st =
     [EvSend (mkIP (ip0 (sub_network_IP st)) (ip1 (sub_network_IP st))
                   (ip2 (sub_network_IP st)) 255)
        (dg_remotePort d) (dg_bytes d)]).
Proof.
  intros Hr Hl Hwf.
  apply Reachable_inv in Hr as (Hw & Ho & Hg & _ & _ & Hn & Hb & _).
  split; [|split]; intros Hc; rewrite (forward_by_case _ d st Hwf Hc).
  - split; [reflexivity | exact Hg].
  - reflexivity.
  - rewrite Hb, Hn, Ho; cbn.
    unfold ip_wf, ip_octets in Hl.
    apply Forall_cons_1 in Hl as [H0 Hl]; apply Forall_cons_1 in Hl as [H1 _].
    rewrite !land_255 by (assumption || apply wrap8_is_octet).
    rewrite (wrap8_octet _ H0), (wrap8_octet _ H1).
    rewrite (wrap8_octet _ (wrap8_is_octet _)). reflexivity.
Qed.

Lemma forwarding_targets_witness :
  outbound dgram_from_child relay_state =
    [EvSend (mkIP 192 168 4 1) 4210 [192; 168; 6; 1; 192; 168; 6; 7; 110]]
  /\
  outbound dgram_to_child relay_state =
    [EvSend (mkIP 192 168 6 9) 4210 [192; 168; 6; 9; 192; 168; 4; 1; 66]]
  /\
  outbound dgram_elsewhere relay_state =
    [EvSend (mkIP 192 168 6 255) 4210 [172; 16; 0; 4; 192; 168; 4; 1; 66]].
Proof.
  assert (Hl : ip_wf (dhcp_local relay_env)).
  { octets. }
  assert (Hwf : forall bs ip, length bs = UDP_PACKET_SIZE ->
                  Forall is_octet bs -> wf_datagram (mkDatagram bs ip 4210))
    by (intros; split; assumption).
  split; [|split].
  - refine (proj1 (proj1 (forwarding_targets relay_env relay_state
             dgram_from_child reachable_relay_state Hl _) _)).
    + apply Hwf; [reflexivity|].
      octets.
    + reflexivity.
  - refine (proj1 (proj2 (forwarding_targets relay_env relay_state
             dgram_to_child reachable_relay_state Hl _)) _).
    + apply Hwf; [reflexivity|].
      octets.
    + repeat split; discriminate.
  - refine (proj2 (proj2 (forwarding_targets relay_env relay_state
             dgram_elsewhere reachable_relay_state Hl _)) _).
    + apply Hwf; [reflexivity|].
      octets.
    + repeat split; discriminate.
Defined.

(** C3 as stated fails: with the cases of the claim, where case b is
    "destination is ownAddress", a packet from the base station for the
    node's address on its uplink, 192.168.4.2, is in case d; it is not
    broadcast downstream but handed to [actionUponRx], and nothing is
    sent. *)
Lemma broadcast_of_packet_for_uplink_address_fails :
  ~ forwarding_claim own_IP dgram_to_uplink_address relay_state.
Proof.
  intros (_ & _ & Hd).
  assert (HD : applies_with own_IP CaseD dgram_to_uplink_address relay_state).
  { split; [discriminate|]. split; discriminate. }
  specialize (Hd HD). vm_compute in Hd. discriminate Hd.
Qed.

(** ** Discovery and link formation *)

(** What discovery selects, for strengths of any size: the base
    station if the scan holds it; otherwise the relay [k] exactly when
    [k] is a relay stronger than the floor -1000 the search starts
    from, no relay is stronger than [k], and every relay scanned
    before [k] (at a higher index) is strictly weaker; and no uplink
    exactly when no relay is stronger than -1000. *)
Lemma discovery_selection (e : Env) :
  let n := length (scan e) in
  ((exists i, (i < n)%nat /\ SSID e i = BS_SSID) ->
   discovery e = ConnectAsRootClient) /\
  ((forall i, (i < n)%nat -> SSID e i <> BS_SSID) ->
   (forall k, discovery e = ConnectViaRelay k <->
              (k < n)%nat /\ SSID e k = MOTE2BS_SSID /\ -1000 < RSSI e k /\
              best_below e n k (RSSI e k)) /\
   (discovery e = NoUplinkFound <->
    forall j, (j < n)%nat -> SSID e j = MOTE2BS_SSID -> RSSI e j <= -1000)).
Proof.
  cbv zeta. split.
  - intros (i & Hi & Hs). exact (discovery_root e i Hi Hs).
  - intros Hno.
    destruct (discovery_no_root e Hno)
      as [(Hd & Hall) | (k0 & Hd & Hk0 & Hs0 & Hr0 & Hb0)]; rewrite Hd.
    + split.
      * intros k. split; [discriminate|].
        intros (Hk & Hs & Hr & _). specialize (Hall k Hk Hs). lia.
      * split; [intros _; exact Hall | reflexivity].
    + split.
      * intros k. split.
        -- intros [= <-].
           split; [exact Hk0|]. split; [exact Hs0|].
           split; [exact Hr0 | exact Hb0].
        -- intros (Hk & Hs & Hr & Hb). f_equal.
           destruct (Hb0 k Hk Hs) as [Hle0 Hlt0].
           destruct (Hb k0 Hk0 Hs0) as [Hle Hlt].
           destruct (Nat.lt_trichotomy k0 k) as [H|[H|H]];
             [specialize (Hlt0 H); lia | exact H | specialize (Hlt H); lia].
      * split; [discriminate|].
        intros Hall. specialize (Hall k0 Hk0 Hs0). lia.
Qed.

(** C4: for a scan whose strengths are above -1000, as every strength
    a radio reports is (dBm, held in a signed 8-bit field): if an entry
    has the name of the base station, discovery selects the base
    station whatever the strengths; otherwise it selects the relay [k]
    exactly when [k] is an entry with the relay name, no entry with the
    relay name is stronger, and every such entry scanned before [k] (at
    a higher index, the scan going down) is strictly weaker, so that a
    candidate of equal strength met later never replaces it; and it
    finds no uplink exactly when no entry has the relay name, in
    particular when no entry matches either name. *)
Theorem discovery_selects_strongest (e : Env) :
  (forall j, (j < length (scan e))%nat -> -1000 < RSSI e j) ->
  ((exists i, (i < length (scan e))%nat /\ SSID e i = BS_SSID) ->
   discovery e = ConnectAsRootClient) /\
  ((forall i, (i < length (scan e))%nat -> SSID e i <> BS_SSID) ->
   (forall k, discovery e = ConnectViaRelay k <->
              (k < length (scan e))%nat /\ SSID e k = MOTE2BS_SSID /\
              best_below e (length (scan e)) k (RSSI e k)) /\
   (discovery e = NoUplinkFound <->
    forall j, (j < length (scan e))%nat -> SSID e j <> MOTE2BS_SSID)).
Proof.
  intros Hrange.
  destruct (discovery_selection e) as [Hroot Hrelay]. split; [exact Hroot|].
  intros Hno. destruct (Hrelay Hno) as [Hk Hnone]. split.
  - intros k. rewrite Hk. split.
    + intros (Hlt & Hs & _ & Hb). auto.
    + intros (Hlt & Hs & Hb). auto.
  - rewrite Hnone. split.
    + intros Hall j Hj Hs. specialize (Hall j Hj Hs).
      specialize (Hrange j Hj). lia.
    + intros Hall j Hj Hs. destruct (Hall j Hj Hs).
Qed.

Lemma discovery_selects_strongest_witness :
  (forall j, (j < length (scan two_relays_env))%nat ->
             -1000 < RSSI two_relays_env j) /\
  (discovery two_relays_env = ConnectViaRelay 3 <->
   (3 < length (scan two_relays_env))%nat /\
   SSID two_relays_env 3 = MOTE2BS_SSID /\
   best_below two_relays_env (length (scan two_relays_env)) 3
     (RSSI two_relays_env 3)).
Proof.
  assert (Hrange : forall j, (j < length (scan two_relays_env))%nat ->
                             -1000 < RSSI two_relays_env j).
  { intros j Hj. cbn in Hj.
    do 4 (destruct j as [|j]; [cbn; lia|]). lia. }
  split; [exact Hrange|].
  refine (proj1 (proj2 (discovery_selects_strongest two_relays_env Hrange) _)
            3%nat).
  intros i Hi. cbn in Hi.
  do 4 (destruct i as [|i]; [discriminate|]). lia.
Defined.

(** Of two equally strong relays the one scanned first, at the higher
    index, is kept. *)
Example discovery_tie_break : discovery two_relays_env = ConnectViaRelay 3.
Proof. reflexivity. Qed.

Lemma setup_succeeds (e : Env) (fuel k : nat) :
  wifi_status e k = true -> (k < fuel)%nat -> discovery e <> NoUplinkFound ->
  exists st tr, setup e fuel init_state = Some (st, tr, Active).
Proof.
  intros Hs Hlt. unfold discovery, setup.
  destruct (find_BS e (length (scan e))) as [i|].
  - intros _.
    destruct (createLink_some e fuel 0 k (set_connectToBS true init_state)
                Hs Hlt) as [tr ->].
    cbn. eauto.
  - cbn.
    destruct (find_MOTE2BS e (length (scan e)) (-1) (-1000) false)
      as [[idx r] flag].
    destruct (0 <=? idx); [|congruence]. intros _.
    destruct (createLink_some e fuel (Z.to_nat idx) k
                (set_connectToBS flag init_state) Hs Hlt) as [tr ->].
    cbn. eauto.
Qed.

(** C5: when the station gets connected (some poll of the status
    answers connected, and discovery found an uplink), [setup] returns
    with the gateway of the uplink recorded as upstream neighbour and
    with an own address made of the uplink address by adding its fourth
    octet into the third modulo 256 and setting the fourth to 1; the
    downstream subnet has the prefix of the own address. *)
Theorem link_formation_identity (e : Env) (fuel k : nat) :
  wifi_status e k = true -> (k < fuel)%nat ->
  discovery e <> NoUplinkFound -> ip_wf (dhcp_local e) ->
  exists st tr,
    setup e fuel init_state = Some (st, tr, Active) /\
    sup_gateway_IP st = dhcp_gateway e /\
    own_IP st =
      mkIP (ip0 (dhcp_local e)) (ip1 (dhcp_local e))
           ((ip2 (dhcp_local e) + ip3 (dhcp_local e)) mod 256) 1 /\
    prefix (sub_network_IP st) = prefix (own_IP st).
Proof.
  intros Hs Hlt Hd Hl.
  destruct (setup_succeeds e fuel k Hs Hlt Hd) as (st & tr & Hsetup).
  exists st, tr. split; [exact Hsetup|].
  apply setup_inv in Hsetup as (_ & Ho & Hg & _ & _ & Hn & _).
  split; [exact Hg|]. split; [exact Ho|].
  rewrite Hn, Ho; unfold prefix; cbn.
  unfold ip_wf, ip_octets in Hl.
  apply Forall_cons_1 in Hl as [H0 Hl]; apply Forall_cons_1 in Hl as [H1 _].
  rewrite !land_255 by (assumption || apply wrap8_is_octet).
  rewrite (wrap8_octet _ H0), (wrap8_octet _ H1).
  rewrite (wrap8_octet _ (wrap8_is_octet _)). reflexivity.
Qed.

Lemma link_formation_identity_witness :
  exists st tr,
    setup relay_env 2 init_state = Some (st, tr, Active) /\
    sup_gateway_IP st = mkIP 192 168 4 1 /\
    own_IP st = mkIP 192 168 ((4 + 2) mod 256) 1 /\
    prefix (sub_network_IP st) = prefix (own_IP st).
Proof.
  refine (link_formation_identity relay_env 2 1 eq_refl _ _ _).
  - lia.
  - discriminate.
  - octets.
Defined.

Lemma discovery_nothing_visible (e : Env) :
  (forall i, (i < length (scan e))%nat ->
             SSID e i <> BS_SSID /\ SSID e i <> MOTE2BS_SSID) ->
  discovery e = NoUplinkFound.
Proof.
  intros H.
  destruct (discovery_no_root e (fun i Hi => proj1 (H i Hi)))
    as [[Hd _] | (k & _ & Hk & Hs & _)]; [exact Hd|].
  destruct (proj2 (H k Hk) Hs).
Qed.

(** C6: when discovery finds no uplink, [setup] ends asleep right
    after the scan: all it did is its initial delay and the sleep
    request, and no connection was attempted, for any bound on the
    polls. *)
Theorem no_uplink_sleeps (e : Env) (fuel : nat) :
  discovery e = NoUplinkFound ->
  exists st tr,
    setup e fuel init_state = Some (st, tr, Sleeping) /\
    tr = [EvDelay WIFI_CONN_DELAY_MS; EvDeepSleep DEEP_SLEEP_US] /\
    count_ev is_begin tr = 0%nat.
Proof.
  unfold discovery, setup.
  destruct (find_BS e (length (scan e))) as [i|]; [discriminate|]. cbn.
  destruct (find_MOTE2BS e (length (scan e)) (-1) (-1000) false)
    as [[idx r] flag].
  destruct (0 <=? idx); [discriminate|]. intros _. cbn. eauto.
Qed.

Lemma no_uplink_sleeps_witness :
  discovery lonely_env = NoUplinkFound /\
  exists st tr,
    setup lonely_env 0 init_state = Some (st, tr, Sleeping) /\
    tr = [EvDelay WIFI_CONN_DELAY_MS; EvDeepSleep DEEP_SLEEP_US] /\
    count_ev is_begin tr = 0%nat.
Proof.
  split; [reflexivity|]. exact (no_uplink_sleeps lonely_env 0 eq_refl).
Defined.

(** ** Telemetry, lifecycle, codec and frame *)

(** A session only stops short of its inputs by going to sleep. *)
Lemma session_progress (inps : list LoopInput) :
  forall (st : State) (k : nat),
    (k < length inps)%nat ->
    is_Some (session inps st !! k) \/
    exists j f ev,
      (j < k)%nat /\ session inps st !! j = Some (f, ev, Sleeping).
Proof.
  induction inps as [|inp rest IH]; intros st k Hk; cbn [length] in Hk;
    [lia|].
  rewrite session_cons. destruct k as [|k]; [left; cbn; eauto|].
  destruct (snd (loop inp st)) eqn:Em.
  - destruct (IH (fst (fst (loop inp st))) k) as [H | (j & f & ev & Hj & H)];
      [lia | left; exact H |].
    right. exists (S j), f, ev. split; [lia | exact H].
  - right. exists 0%nat, (fires inp st), (snd (fst (loop inp st))).
    split; [lia | reflexivity].
Qed.

(** C7: the send counter grows by exactly one in a pass whose timer
    fires and stays in the others; in a session started with the
    counter at 0, a pass ends asleep exactly when its timer fires and
    it is the fifth pass to do so; that pass sends its telemetry packet
    and requests the sleep itself, as its last two events, and is the
    last of the session; no earlier pass requests sleep, and the
    session goes on until then. *)
Theorem sleep_on_fifth_firing (inps : list LoopInput) (st : State) :
  msg_sent_cnt st = 0 ->
  (forall inp s,
     0 <= msg_sent_cnt s < MSG_SENT_MAX ->
     msg_sent_cnt (fst (fst (loop inp s))) =
       msg_sent_cnt s + (if fires inp s then 1 else 0)) /\
  (forall k f ev m,
     session inps st !! k = Some (f, ev, m) ->
     (m = Sleeping <->
      f = true /\
      count_fired (take (S k) (session inps st)) = MSG_SENT_MAX) /\
     (m = Sleeping ->
      length (session inps st) = S k /\
      exists ev1 dst pkt,
        ev = ev1 ++ [EvSend dst UDP_PORT pkt; EvDeepSleep DEEP_SLEEP_US]) /\
     (m = Active -> count_ev is_sleep ev = 0%nat)) /\
  (forall k,
     (k < length inps)%nat ->
     is_Some (session inps st !! k) \/
     exists j f ev,
       (j < k)%nat /\ session inps st !! j = Some (f, ev, Sleeping)).
Proof.
  intros H0. split; [|split].
  - intros inp s Hs. apply loop_counter_small. exact Hs.
  - intros k f ev m Hk.
    assert (Hc : 0 <= msg_sent_cnt st < MSG_SENT_MAX)
      by (rewrite H0; unfold MSG_SENT_MAX; lia).
    pose proof (session_spec inps st k f ev m Hc Hk) as H.
    rewrite H0, Z.add_0_l in H. exact H.
  - apply session_progress.
Qed.

Lemma sleep_on_fifth_firing_witness :
  msg_sent_cnt relay_state = 0 /\
  (Sleeping = Sleeping <->
   true = true /\
   count_fired (take 6 (session five_ticks relay_state)) = MSG_SENT_MAX).
Proof.
  split; [reflexivity|].
  refine (proj1 (proj1 (proj2 (sleep_on_fifth_firing five_ticks relay_state
                                 eq_refl)) 5%nat true _ Sleeping _)).
  vm_compute. reflexivity.
Defined.

(** C8 (as amended): a pass whose timer fires sends, to the upstream
    neighbour on the well-known port, the 9-byte packet made of the
    upstream neighbour's address, the node's address on its uplink and
    the marker byte 65, and the send counter grows by one. *)
Theorem telemetry_firing (inp : LoopInput) (st : State) :
  length (txBuffer st) = UDP_PACKET_SIZE ->
  0 <= msg_sent_cnt st < MSG_SENT_MAX ->
  fires inp st = true ->
  In (EvSend (sup_gateway_IP st) UDP_PORT
        (ip_octets (sup_gateway_IP st) ++ ip_octets (uplink_address st)
         ++ [65]))
     (snd (fst (loop inp st))) /\
  msg_sent_cnt (fst (fst (loop inp st))) = msg_sent_cnt st + 1.
Proof.
  intros Hl Hc Hf. split.
  - rewrite loop_events, Hf.
    destruct (receive_keeps inp st) as (Ht & _ & _).
    pose proof (receive_frame inp st) as Hfr.
    rewrite telemetry_send by (rewrite Ht; exact Hl).
    unfold telemetry_packet, uplink_address. rewrite Hfr; cbn [sup_gateway_IP
      WiFi with_scratch].
    apply in_or_app; right. apply in_or_app; left. left. reflexivity.
  - rewrite (loop_counter_small inp st Hc), Hf. reflexivity.
Qed.

Lemma telemetry_firing_witness :
  In (EvSend (mkIP 192 168 4 1) 4210 [192; 168; 4; 1; 192; 168; 4; 2; 65])
     (snd (fst (loop (tick 9000) relay_state))) /\
  msg_sent_cnt (fst (fst (loop (tick 9000) relay_state))) = 0 + 1.
Proof.
  refine (telemetry_firing (tick 9000) relay_state eq_refl _ eq_refl).
  unfold MSG_SENT_MAX; cbn; lia.
Defined.

(** C8 as stated fails: the source field of the telemetry packet is
    192.168.4.2, the address on the uplink, not ownAddress
    192.168.6.1. *)
Lemma telemetry_source_is_not_ownAddress :
  ~ telemetry_claim own_IP (tick 9000) relay_state.
Proof.
  intros H. specialize (H eq_refl). vm_compute in H.
  destruct H as [H|[]]. discriminate H.
Qed.

(** The packet [fillBuffer] writes is the encoding of the message it
    stands for. *)
Lemma fillBuffer_encodes (src : IPAddress) (st : State) :
  telemetry_packet src st = encodeMsg (mkMsg (sup_gateway_IP st) src [65]).
Proof. reflexivity. Qed.

(** C9: on a 9-byte input [parseMsg] reads the destination from bytes
    0..3, the source from bytes 4..7 and the payload from byte 8 on,
    and encoding the message it read gives the input back. *)
Theorem codec_roundtrip (bytes : list Z) (st : State) :
  length bytes = UDP_PACKET_SIZE -> Forall is_octet bytes ->
  let m := rxMsg (parseMsg bytes st) in
  ip_octets (dstIP m) = take 4 bytes /\
  ip_octets (srcIP m) = take 4 (drop 4 bytes) /\
  payload m = drop 8 bytes /\
  encodeMsg m = bytes.
Proof.
  intros Hlen Hoct. cbv zeta. rewrite (parseMsg_wf bytes st Hlen Hoct).
  destruct (nine_bytes _ Hlen) as (b0&b1&b2&b3&b4&b5&b6&b7&b8&->).
  repeat split.
Qed.

Lemma codec_roundtrip_witness :
  encodeMsg (rxMsg (parseMsg [192; 168; 5; 9; 10; 0; 0; 2; 66] init_state))
  = [192; 168; 5; 9; 10; 0; 0; 2; 66].
Proof.
  refine (proj2 (proj2 (proj2
            (codec_roundtrip [192; 168; 5; 9; 10; 0; 0; 2; 66] init_state
               eq_refl _)))).
  octets.
Defined.

(** C10: a pass of [loop] changes nothing but the receive and
    transmit buffers, the receive size, the parsed message, the sender
    and destination subnets, the sender port, the timer and the send
    counter; the own address, the downstream subnet, its broadcast
    address, the netmask, both gateways and the driver's addresses are
    as they were. *)
Theorem loop_preserves_identity (inp : LoopInput) (st : State) :
  let st' := fst (fst (loop inp st)) in
  st' = with_scratch st' st /\
  own_IP st' = own_IP st /\
  sub_network_IP st' = sub_network_IP st /\
  subnetmask_IP st' = subnetmask_IP st /\
  sub_broadcast_IP st' = sub_broadcast_IP st /\
  sup_gateway_IP st' = sup_gateway_IP st /\
  sub_gateway_IP st' = sub_gateway_IP st /\
  sup_network_IP st' = sup_network_IP st /\
  WiFi st' = WiFi st.
Proof.
  intros st'. assert (Hf : st' = with_scratch st' st) by apply loop_frame.
  split; [exact Hf|]. rewrite Hf. repeat split.
Qed.

(** * Further properties of the relay *)

(** ** The forwarding engine on arbitrary datagrams *)

Lemma forward_rxBuffer (d : Datagram) (st : State) :
  rxBuffer (fst (forward d st)) =
    take UDP_PACKET_SIZE (dg_bytes d)
    ++ drop (length (take UDP_PACKET_SIZE (dg_bytes d))) (rxBuffer st).
Proof. unfold forward, UDP_read. case_ifs; reflexivity. Qed.



(** X2: a datagram of any size is neither rejected nor dropped: it
    gives exactly one event, the local delivery or one packet that
    carries the bytes read (at most [UDP_PACKET_SIZE]) to the port of
    the sender. *)
Theorem forward_never_drops (d : Datagram) (st : State) :
  exists ev,
    outbound d st = [ev] /\
    ((exists last,
        ev = EvActionUponRx
               (Z.of_nat (length (take UDP_PACKET_SIZE (dg_bytes d)))) last)
     \/ exists dst,
          ev = EvSend dst (dg_remotePort d)
                 (take UDP_PACKET_SIZE (dg_bytes d))).
Proof.
  unfold outbound, forward, UDP_read, UDP_send, actionUponRx.
  case_ifs;
    cbn [snd rxSize rxBuffer remote_PORT set_dstnet_IP set_sendernet_IP
         set_remote_PORT parseMsg set_rxMsg set_rxSize set_rxBuffer];
    rewrite ?Nat2Z.id, ?take_app_length;
    eexists; (split; [reflexivity|]); eauto.
Qed.

Lemma parseMsg_base (bytes : list Z) (s s' : State) :
  rxMsg (parseMsg bytes s) = rxMsg (parseMsg bytes s').
Proof. reflexivity. Qed.

(** [parseMsg] reads the first [UDP_PACKET_SIZE] cells only. *)
Lemma parseMsg_prefix (l t : list Z) (s : State) :
  length l = UDP_PACKET_SIZE ->
  rxMsg (parseMsg (l ++ t) s) = rxMsg (parseMsg l s).
Proof.
  intros H. destruct (nine_bytes _ H) as (b0&b1&b2&b3&b4&b5&b6&b7&b8&->).
  reflexivity.
Qed.

Lemma forward_rxMsg (d : Datagram) (st : State) :
  rxMsg (fst (forward d st)) =
    rxMsg (parseMsg (rxBuffer (fst (forward d st))) st).
Proof. unfold forward, UDP_read. case_ifs; reflexivity. Qed.

(** X3: an undersized datagram is parsed together with what the
    previous datagram left in the receive buffer: after a full-size
    datagram [d1], a shorter [d2] is read as [d2]'s bytes followed by
    the bytes of [d1] from that position on. *)
Theorem undersized_reads_stale_bytes (d1 d2 : Datagram) (st : State) :
  length (dg_bytes d1) = UDP_PACKET_SIZE ->
  (length (dg_bytes d2) <= UDP_PACKET_SIZE)%nat ->
  rxMsg (fst (forward d2 (fst (forward d1 st)))) =
    rxMsg (parseMsg
             (dg_bytes d2 ++ drop (length (dg_bytes d2)) (dg_bytes d1)) st).
Proof.
  intros H1 H2. rewrite forward_rxMsg, !forward_rxBuffer.
  rewrite (take_ge (dg_bytes d2)) by exact H2.
  rewrite (take_ge (dg_bytes d1)) by (rewrite H1; reflexivity).
  rewrite drop_app_le by (rewrite H1; exact H2).
  rewrite app_assoc, (parseMsg_base _ _ st). apply parseMsg_prefix.
  rewrite length_app, length_drop, H1. unfold UDP_PACKET_SIZE in *. lia.
Qed.

Lemma undersized_reads_stale_bytes_witness :
  rxMsg (fst (forward (mkDatagram [192; 168] (mkIP 192 168 4 1) 4210)
                (fst (forward dgram_to_child relay_state)))) =
    rxMsg (parseMsg [192; 168; 6; 9; 192; 168; 4; 1; 66] relay_state).
Proof.
  refine (undersized_reads_stale_bytes dgram_to_child
            (mkDatagram [192; 168] (mkIP 192 168 4 1) 4210) relay_state
            eq_refl _).
  unfold UDP_PACKET_SIZE; cbn; lia.
Defined.

(** ** The telemetry timer *)

(** X4: the timer test is right across the roll-over of [millis()]:
    when the clock reads the previous firing time plus [elapsed] modulo
    2^32, the timer fires exactly when [elapsed] has reached the
    period. *)
Theorem fires_iff_elapsed (inp : LoopInput) (st : State) (elapsed : Z) :
  0 <= previousMillis st < 2 ^ 32 ->
  0 <= elapsed < 2 ^ 32 ->
  millis1 inp = (previousMillis st + elapsed) mod 2 ^ 32 ->
  (fires inp st = true <-> tx_period <= elapsed).
Proof.
  intros Hp He Hm. unfold fires, wrap_ulong. rewrite Hm.
  rewrite Zminus_mod_idemp_l.
  replace (previousMillis st + elapsed - previousMillis st) with elapsed
    by lia.
  rewrite Z.mod_small by exact He. apply Z.leb_le.
Qed.

Lemma fires_iff_elapsed_witness :
  fires (mkInput None 5000 5001)
        (set_previousMillis 4294963296 relay_state) = true
  <-> tx_period <= 9000.
Proof.
  refine (fires_iff_elapsed (mkInput None 5000 5001)
            (set_previousMillis 4294963296 relay_state) 9000 _ _ eq_refl);
    cbn; lia.
Defined.

(** The reference time of the timer after a pass: the second reading
    of the clock when the timer fired, unchanged otherwise. *)
Lemma loop_timer_reset (inp : LoopInput) (st : State) :
  previousMillis (fst (fst (loop inp st))) =
    if fires inp st then millis2 inp else previousMillis st.
Proof.
  rewrite loop_unfold; cbv zeta.
  destruct (receive_keeps inp st) as (_ & Hp & _).
  destruct (msg_sent_cnt _ =? MSG_SENT_MAX); cbn [fst];
    destruct (fires inp st); cbn; auto.
Qed.

(** ** The session *)

Lemma session_budget (inps : list LoopInput) :
  forall st : State,
    0 <= msg_sent_cnt st < MSG_SENT_MAX ->
    msg_sent_cnt st + count_fired (session inps st) <= MSG_SENT_MAX /\
    (msg_sent_cnt st + count_fired (session inps st) = MSG_SENT_MAX <->
     exists f ev, last (session inps st) = Some (f, ev, Sleeping)).
Proof.
  induction inps as [|inp rest IH]; intros st Hc.
  - cbn. change (count_fired []) with 0. split; [lia|].
    split; [lia | intros (f & ev & H); discriminate H].
  - rewrite session_cons, count_fired_cons.
    pose proof (loop_counter_small inp st Hc) as Hcnt.
    pose proof (loop_mode inp st) as Hmode.
    destruct (snd (loop inp st)) eqn:Em.
    + assert (Hc' : 0 <= msg_sent_cnt (fst (fst (loop inp st)))
                    < MSG_SENT_MAX).
      { assert (msg_sent_cnt (fst (fst (loop inp st))) <> MSG_SENT_MAX)
          by (intros E; apply Hmode in E; discriminate).
        rewrite Hcnt in *. destruct (fires inp st); lia. }
      destruct (IH _ Hc') as [Hle Hiff]. rewrite Hcnt in Hle, Hiff.
      split; [lia|]. rewrite last_cons.
      rewrite Z.add_assoc, Hiff.
      destruct (last (session rest (fst (fst (loop inp st)))))
        as [[[f' ev'] m']|].
      * reflexivity.
      * split; intros (f & ev & H); discriminate H.
    + change (count_fired []) with 0. cbn [last].
      assert (msg_sent_cnt (fst (fst (loop inp st))) = MSG_SENT_MAX)
        by (apply Hmode; reflexivity).
      split; [lia|]. split; [eauto | lia].
Qed.

(** X5: a session started with the counter at 0 fires its timer at
    most [MSG_SENT_MAX] times, whatever it receives and however long
    its inputs go on; it reaches that number exactly when its last
    pass ends asleep. *)
Theorem session_sends_at_most_max (inps : list LoopInput) (st : State) :
  msg_sent_cnt st = 0 ->
  count_fired (session inps st) <= MSG_SENT_MAX /\
  (count_fired (session inps st) = MSG_SENT_MAX <->
   exists f ev, last (session inps st) = Some (f, ev, Sleeping)).
Proof.
  intros H0.
  assert (Hc : 0 <= msg_sent_cnt st < MSG_SENT_MAX)
    by (rewrite H0; unfold MSG_SENT_MAX; lia).
  pose proof (session_budget inps st Hc) as H.
  rewrite H0, Z.add_0_l in H. exact H.
Qed.

Lemma session_sends_at_most_max_witness :
  count_fired (session five_ticks relay_state) <= MSG_SENT_MAX.
Proof.
  exact (proj1 (session_sends_at_most_max five_ticks relay_state eq_refl)).
Defined.

(** ** Buffers *)

Lemma loop_rx (inp : LoopInput) (st : State) :
  rxBuffer (fst (fst (loop inp st))) = rxBuffer (fst (receive inp st)) /\
  rxSize (fst (fst (loop inp st))) = rxSize (fst (receive inp st)).
Proof.
  rewrite loop_unfold; cbv zeta.
  destruct (msg_sent_cnt _ =? MSG_SENT_MAX); cbn [fst];
    destruct (fires inp st); split; reflexivity.
Qed.

Lemma receive_rx_bounds (inp : LoopInput) (st : State) :
  length (rxBuffer st) = UDP_PACKET_SIZE ->
  0 <= rxSize st <= Z.of_nat UDP_PACKET_SIZE ->
  length (rxBuffer (fst (receive inp st))) = UDP_PACKET_SIZE /\
  0 <= rxSize (fst (receive inp st)) <= Z.of_nat UDP_PACKET_SIZE.
Proof.
  intros Hl Hs. unfold receive.
  destruct (inbound inp) as [d|]; [|auto].
  destruct (UDP_parsePacket inp =? 0); [auto|].
  rewrite forward_rxBuffer.
  assert (Hsz : rxSize (fst (forward d st)) =
                Z.of_nat (length (take UDP_PACKET_SIZE (dg_bytes d))))
    by (unfold forward, UDP_read; case_ifs; reflexivity).
  rewrite Hsz, length_app, length_drop, Hl, length_take.
  unfold UDP_PACKET_SIZE. lia.
Qed.

(** X17: the buffers are never overrun.  In every state of a session
    the receive and transmit buffers have their [UDP_PACKET_SIZE]
    cells, the receive size is at most that, so that [UDP.write] only
    reads cells the buffer has, and the send counter is below the
    maximum. *)
Theorem session_buffers_in_bounds (e : Env) (st : State) :
  Reachable e st ->
  length (rxBuffer st) = UDP_PACKET_SIZE /\
  length (txBuffer st) = UDP_PACKET_SIZE /\
  0 <= rxSize st <= Z.of_nat UDP_PACKET_SIZE /\
  0 <= msg_sent_cnt st < MSG_SENT_MAX.
Proof.
  intros Hr.
  pose proof (Reachable_inv e st Hr) as (_ & _ & _ & _ & _ & _ & _ & Ht & Hc).
  assert (Hrx : length (rxBuffer st) = UDP_PACKET_SIZE /\
                0 <= rxSize st <= Z.of_nat UDP_PACKET_SIZE).
  { clear Ht Hc.
    induction Hr as [fuel st tr H | st inp st' tr _ IH H].
    - apply setup_active in H as [flag ->]. cbn. split; [reflexivity | lia].
    - destruct IH as [Hl Hs].
      destruct (loop_rx inp st) as [Hb Hz].
      rewrite H in Hb, Hz; cbn [fst] in Hb, Hz. rewrite Hb, Hz.
      apply receive_rx_bounds; assumption. }
  destruct Hrx as [Hl Hs]. auto.
Qed.

Lemma session_buffers_in_bounds_witness :
  length (rxBuffer relay_state) = UDP_PACKET_SIZE /\
  length (txBuffer relay_state) = UDP_PACKET_SIZE /\
  0 <= rxSize relay_state <= Z.of_nat UDP_PACKET_SIZE /\
  0 <= msg_sent_cnt relay_state < MSG_SENT_MAX.
Proof.
  exact (session_buffers_in_bounds relay_env relay_state
           reachable_relay_state).
Defined.

(** ** Link formation *)

Lemma wait_connected_exact (e : Env) (fuel n k : nat) :
  (forall j, (k <= j < k + n)%nat -> wifi_status e j = false) ->
  wifi_status e (k + n)%nat = true -> (n < fuel)%nat ->
  wait_connected fuel e k = Some (replicate n (EvDelay WIFI_CONN_DELAY_MS)).
Proof.
  revert n k. induction fuel as [|fuel IH]; intros n k Hf Ht Hlt; [lia|].
  cbn. destruct n as [|n].
  - rewrite Nat.add_0_r in Ht. rewrite Ht. reflexivity.
  - rewrite (Hf k) by lia.
    rewrite (IH n (S k)); [reflexivity | | | lia].
    + intros j Hj. apply Hf. lia.
    + rewrite <- Ht. f_equal. lia.
Qed.

Lemma wait_connected_none (e : Env) (fuel k : nat) :
  (forall j, (k <= j < k + fuel)%nat -> wifi_status e j = false) ->
  wait_connected fuel e k = None.
Proof.
  revert k. induction fuel as [|fuel IH]; intros k Hf; [reflexivity|].
  cbn. rewrite (Hf k) by lia. rewrite IH; [reflexivity|].
  intros j Hj. apply Hf. lia.
Qed.

Lemma createLink_exact (e : Env) (fuel idx k : nat) (st : State) :
  (forall j, (j < k)%nat -> wifi_status e j = false) ->
  wifi_status e k = true -> (k < fuel)%nat ->
  createLink e fuel idx st =
    Some (link_state e st,
          [EvDisconnect;
           if connectToBS st then EvBegin BS_SSID BS_PASS
           else EvBegin (SSID e idx) MOTE2BS_PASS]
          ++ replicate k (EvDelay WIFI_CONN_DELAY_MS)).
Proof.
  intros Hf Ht Hlt. unfold createLink.
  rewrite (wait_connected_exact e fuel k 0); try assumption.
  - reflexivity.
  - intros j Hj. apply Hf. lia.
Qed.

Lemma find_MOTE2BS_flag (e : Env) (i : nat) (idx r : Z) :
  snd (find_MOTE2BS e i idx r false) = false.
Proof.
  revert idx r. induction i as [|i IH]; intros idx r; cbn; [reflexivity|].
  destruct (SSID e i =? MOTE2BS_SSID)%string; [|apply IH].
  destruct (r <? RSSI e i); apply IH.
Qed.

(** X6: when discovery finds an uplink and the station is connected at
    poll [k] for the first time, [setup], after its initial delay,
    makes exactly one connection attempt, to the base station if it is
    in range and to a relay otherwise, waits [k] delays, and only then
    opens its own access point, under the relay name and at the derived
    address, and starts to listen. *)
Theorem setup_trace (e : Env) (fuel k : nat) :
  (forall j, (j < k)%nat -> wifi_status e j = false) ->
  wifi_status e k = true -> (k < fuel)%nat ->
  discovery e <> NoUplinkFound ->
  exists st,
    setup e fuel init_state =
      Some (st,
            [EvDelay WIFI_CONN_DELAY_MS; EvDisconnect;
             match discovery e with
             | ConnectAsRootClient => EvBegin BS_SSID BS_PASS
             | _ => EvBegin MOTE2BS_SSID MOTE2BS_PASS
             end]
            ++ replicate k (EvDelay WIFI_CONN_DELAY_MS)
            ++ [EvSoftAP MOTE2BS_SSID MOTE2BS_PASS (own_IP st) (own_IP st)
                  (mkIP 255 255 255 0);
                EvListen UDP_PORT],
            Active).
Proof.
  intros Hf Ht Hlt. unfold discovery, setup.
  destruct (find_BS e (length (scan e))) as [i|].
  - intros _.
    rewrite (createLink_exact e fuel 0 k _ Hf Ht Hlt). cbn.
    match goal with
    | |- ex (fun st => Some (?S, _, _) = _) => exists S
    end.
    cbn. reflexivity.
  - cbn.
    pose proof (find_MOTE2BS_spec e (length (scan e)) (-1) (-1000) false)
      as Hspec.
    pose proof (find_MOTE2BS_flag e (length (scan e)) (-1) (-1000)) as Hflag.
    destruct (find_MOTE2BS e (length (scan e)) (-1) (-1000) false)
      as [[idx r] flag]; cbn [fst snd] in Hspec, Hflag. subst flag.
    destruct (0 <=? idx) eqn:Hidx; [|congruence]. intros _.
    destruct Hspec as [(-> & _) | (j & _ & -> & Hs & _)];
      [discriminate Hidx|].
    rewrite Nat2Z.id.
    rewrite (createLink_exact e fuel j k _ Hf Ht Hlt). cbn. rewrite Hs.
    match goal with
    | |- ex (fun st => Some (?S, _, _) = _) => exists S
    end.
    cbn. reflexivity.
Qed.

Lemma setup_trace_witness :
  exists st,
    setup relay_env 2 init_state =
      Some (st,
            [EvDelay WIFI_CONN_DELAY_MS; EvDisconnect;
             EvBegin BS_SSID BS_PASS]
            ++ replicate 1 (EvDelay WIFI_CONN_DELAY_MS)
            ++ [EvSoftAP MOTE2BS_SSID MOTE2BS_PASS (own_IP st) (own_IP st)
                  (mkIP 255 255 255 0);
                EvListen UDP_PORT],
            Active).
Proof.
  refine (setup_trace relay_env 2 1 _ eq_refl _ _).
  - intros j Hj. assert (j = 0%nat) as -> by lia. reflexivity.
  - lia.
  - discriminate.
Defined.

(** X7: the wait for the connection has no limit: as long as every
    poll looked at answers not connected, [setup] has neither returned
    nor asked for sleep, however many polls that is. *)
Theorem setup_waits_without_limit (e : Env) (fuel : nat) :
  (forall j, (j < fuel)%nat -> wifi_status e j = false) ->
  discovery e <> NoUplinkFound ->
  setup e fuel init_state = None.
Proof.
  intros Hf. unfold discovery, setup.
  assert (Hlink : forall idx st, createLink e fuel idx st = None).
  { intros idx st. unfold createLink.
    rewrite wait_connected_none; [reflexivity|].
    intros j Hj. apply Hf. lia. }
  destruct (find_BS e (length (scan e))) as [i|].
  - intros _. rewrite Hlink. reflexivity.
  - cbn.
    destruct (find_MOTE2BS e (length (scan e)) (-1) (-1000) false)
      as [[idx r] flag].
    destruct (0 <=? idx); [|congruence]. intros _.
    rewrite Hlink. reflexivity.
Qed.

Lemma setup_waits_without_limit_witness :
  setup (mkEnv (scan relay_env) (fun _ => false) ip_zero ip_zero) 1000
        init_state = None.
Proof.
  refine (setup_waits_without_limit _ 1000 _ _).
  - intros j _. reflexivity.
  - discriminate.
Defined.

(** ** The derived identity *)

(** The identity of a session in terms of the address on the uplink. *)
Lemma session_identity (e : Env) (st : State) :
  Reachable e st -> ip_wf (dhcp_local e) ->
  uplink_address st = dhcp_local e /\
  sup_gateway_IP st = dhcp_gateway e /\
  own_IP st =
    mkIP (ip0 (dhcp_local e)) (ip1 (dhcp_local e))
         (wrap8 (ip2 (dhcp_local e) + ip3 (dhcp_local e))) 1 /\
  sub_network_IP st =
    mkIP (ip0 (dhcp_local e)) (ip1 (dhcp_local e))
         (wrap8 (ip2 (dhcp_local e) + ip3 (dhcp_local e))) 0 /\
  sub_broadcast_IP st =
    mkIP (ip0 (dhcp_local e)) (ip1 (dhcp_local e))
         (wrap8 (ip2 (dhcp_local e) + ip3 (dhcp_local e))) 255.
Proof.
  intros Hr Hl.
  apply Reachable_inv in Hr as (Hw & Ho & Hg & _ & _ & Hn & Hb & _).
  unfold uplink_address. rewrite Hw, Hn, Hb, Ho; cbn.
  unfold ip_wf, ip_octets in Hl.
  apply Forall_cons_1 in Hl as [H0 Hl]; apply Forall_cons_1 in Hl as [H1 _].
  rewrite !land_255 by (assumption || apply wrap8_is_octet).
  rewrite (wrap8_octet _ H0), (wrap8_octet _ H1).
  rewrite (wrap8_octet _ (wrap8_is_octet _)). repeat split; assumption.
Qed.

Lemma ip_wf_octets (a : IPAddress) :
  ip_wf a ->
  is_octet (ip0 a) /\ is_octet (ip1 a) /\ is_octet (ip2 a) /\ is_octet (ip3 a).
Proof.
  unfold ip_wf, ip_octets. intros H.
  repeat (apply Forall_cons_1 in H as [? H]). auto.
Qed.

(** X8: two relays own the same downstream subnet exactly when their
    uplink addresses agree on the first two octets and on the sum of
    the last two modulo 256; so relays attached to the same network
    with different host octets never collide, while relays on
    different networks can, and nothing in [setup] detects it. *)
Theorem downstream_subnets_coincide (e1 e2 : Env) (fuel1 fuel2 : nat)
    (st1 st2 : State) (tr1 tr2 : list Event) :
  setup e1 fuel1 init_state = Some (st1, tr1, Active) ->
  setup e2 fuel2 init_state = Some (st2, tr2, Active) ->
  ip_wf (dhcp_local e1) -> ip_wf (dhcp_local e2) ->
  (sub_network_IP st1 = sub_network_IP st2 <->
   ip0 (dhcp_local e1) = ip0 (dhcp_local e2) /\
   ip1 (dhcp_local e1) = ip1 (dhcp_local e2) /\
   (ip2 (dhcp_local e1) + ip3 (dhcp_local e1)) mod 256 =
   (ip2 (dhcp_local e2) + ip3 (dhcp_local e2)) mod 256) /\
  (prefix (dhcp_local e1) = prefix (dhcp_local e2) ->
   ip3 (dhcp_local e1) <> ip3 (dhcp_local e2) ->
   sub_network_IP st1 <> sub_network_IP st2).
Proof.
  intros H1 H2 Hl1 Hl2.
  destruct (session_identity e1 st1 (Reach_setup _ _ _ _ H1) Hl1)
    as (_ & _ & _ & -> & _).
  destruct (session_identity e2 st2 (Reach_setup _ _ _ _ H2) Hl2)
    as (_ & _ & _ & -> & _).
  apply ip_wf_octets in Hl1 as (_ & _ & Ha2 & Ha3).
  apply ip_wf_octets in Hl2 as (_ & _ & Hb2 & Hb3).
  unfold wrap8, prefix, is_octet in *. split.
  - split.
    + intros [= -> -> ->]. auto.
    + intros (-> & -> & ->). reflexivity.
  - intros [= _ _ Hp] Hne [= _ _ Hs]. rewrite Hp in Hs.
    apply Hne. revert Hs. generalize (ip2 (dhcp_local e2)); intros z Hs.
    Z.to_euclidean_division_equations. lia.
Qed.

Lemma downstream_subnets_coincide_witness :
  let e1 := mkEnv (scan relay_env) (fun _ => true)
              (mkIP 192 168 6 2) (mkIP 192 168 6 1) in
  let e2 := mkEnv (scan relay_env) (fun _ => true)
              (mkIP 192 168 4 4) (mkIP 192 168 4 1) in
  exists st1 st2 tr1 tr2,
    setup e1 1 init_state = Some (st1, tr1, Active) /\
    setup e2 1 init_state = Some (st2, tr2, Active) /\
    (sub_network_IP st1 = sub_network_IP st2 <->
     192 = 192 /\ 168 = 168 /\ (6 + 2) mod 256 = (4 + 4) mod 256).
Proof.
  intros e1 e2.
  assert (E1 : exists st tr, setup e1 1 init_state = Some (st, tr, Active))
    by (vm_compute; eauto).
  assert (E2 : exists st tr, setup e2 1 init_state = Some (st, tr, Active))
    by (vm_compute; eauto).
  destruct E1 as (st1 & tr1 & E1). destruct E2 as (st2 & tr2 & E2).
  exists st1, st2, tr1, tr2. split; [exact E1|]. split; [exact E2|].
  refine (proj1 (downstream_subnets_coincide e1 e2 1 1 st1 st2 tr1 tr2
                   E1 E2 _ _)); octets.
Defined.

(** X9: a datagram whose sender is on the uplink network is taken for
    a child's (case a, sent back up to the gateway) exactly when the
    host octet of the node's uplink address is 0; with any other host
    octet the uplink and downstream subnets differ and traffic from
    above is never bounced. *)
Theorem uplink_sender_is_child_iff (e : Env) (st : State) (d : Datagram) :
  Reachable e st -> ip_wf (dhcp_local e) ->
  prefix (dg_remoteIP d) = prefix (uplink_address st) ->
  (applies CaseA d st <-> ip3 (dhcp_local e) = 0).
Proof.
  intros Hr Hl Hp.
  destruct (session_identity e st Hr Hl) as (Hu & _ & _ & Hn & _).
  rewrite Hu in Hp. unfold applies, applies_with, subnetOf. rewrite Hn.
  destruct (dg_remoteIP d) as [r0 r1 r2 r3]; cbn in *.
  injection Hp as -> -> ->.
  apply ip_wf_octets in Hl as (_ & _ & H2 & H3).
  unfold wrap8, is_octet in *. split.
  - intros [= Hs]. revert Hs H2 H3.
    generalize (ip2 (dhcp_local e)) (ip3 (dhcp_local e)); intros a b Hs H2 H3.
    Z.to_euclidean_division_equations. lia.
  - intros ->.
    rewrite Z.add_0_r, (Z.mod_small (ip2 (dhcp_local e))) by exact H2.
    reflexivity.
Qed.

Lemma uplink_sender_is_child_iff_witness :
  applies CaseA dgram_to_uplink_address relay_state <-> 2 = 0.
Proof.
  refine (uplink_sender_is_child_iff relay_env relay_state
            dgram_to_uplink_address reachable_relay_state _ eq_refl).
  octets.
Defined.

(** ** The codec of the sketch itself *)

(** X10: what [fillBuffer] writes, [parseMsg] reads back: the
    telemetry buffer parses to the upstream neighbour as destination,
    the address on the uplink as source and the marker as payload. *)
Theorem fillBuffer_parses_back (st s : State) :
  length (txBuffer st) = UDP_PACKET_SIZE ->
  ip_wf (sup_gateway_IP st) -> ip_wf (uplink_address st) ->
  rxMsg (parseMsg (txBuffer (fillBuffer (txBuffer st) st)) s) =
    mkMsg (sup_gateway_IP st) (uplink_address st) [65].
Proof.
  intros Hl Hg Hu.
  destruct (nine_bytes _ Hl) as (t0&t1&t2&t3&t4&t5&t6&t7&t8&Ht).
  apply ip_wf_octets in Hg as (G0 & G1 & G2 & G3).
  apply ip_wf_octets in Hu as (U0 & U1 & U2 & U3).
  unfold uplink_address in *.
  rewrite parseMsg_decodes. unfold fillBuffer. cbn [txBuffer set_txBuffer].
  rewrite Ht. unfold buf_at, ip_set; cbn.
  rewrite !wrap8_octet by assumption.
  destruct (sup_gateway_IP st), (localIP (WiFi st)); reflexivity.
Qed.

Lemma fillBuffer_parses_back_witness :
  rxMsg (parseMsg (txBuffer (fillBuffer (txBuffer relay_state) relay_state))
           init_state) =
    mkMsg (mkIP 192 168 4 1) (mkIP 192 168 4 2) [65].
Proof.
  refine (fillBuffer_parses_back relay_state init_state eq_refl _ _); octets.
Defined.

(** * The peers *)

(** ** The base station *)

(** X11: the base station answers a full-size datagram with exactly one
    packet, sent to the transport address and port the datagram came
    from; its destination field is the source field of the datagram,
    its source field the address of the access point and its payload
    the byte 66. *)
Theorem base_station_replies_to_source (d : Datagram)
    (st : BaseStation.State) :
  length (dg_bytes d) = UDP_PACKET_SIZE ->
  length (BaseStation.txBuffer st) = UDP_PACKET_SIZE ->
  snd (BaseStation.loop (Some d) st) =
    [EvSend (dg_remoteIP d) (dg_remotePort d)
       (take 4 (drop 4 (dg_bytes d))
        ++ ip_octets (BaseStation.softAPIP st) ++ [66])].
Proof.
  intros Hd Ht. destruct d as [bytes rip rport]; cbn in Hd |- *.
  destruct (nine_bytes _ Hd) as (b0&b1&b2&b3&b4&b5&b6&b7&b8&->).
  destruct (nine_bytes _ Ht) as (t0&t1&t2&t3&t4&t5&t6&t7&t8&Hb).
  destruct st; cbn in Hb; subst. reflexivity.
Qed.

Lemma base_station_replies_to_source_witness :
  snd (BaseStation.loop
         (Some (mkDatagram [192; 168; 6; 1; 192; 168; 6; 7; 110]
                  (mkIP 192 168 4 2) 4210))
         (fst (BaseStation.setup BaseStation.init_state))) =
    [EvSend (mkIP 192 168 4 2) 4210 [192; 168; 6; 7; 192; 168; 4; 1; 66]].
Proof.
  exact (base_station_replies_to_source
           (mkDatagram [192; 168; 6; 1; 192; 168; 6; 7; 110]
              (mkIP 192 168 4 2) 4210)
           (fst (BaseStation.setup BaseStation.init_state)) eq_refl eq_refl).
Defined.

(** ** The leaf *)

Lemma client_wait_connected (e : Env) (n : nat) :
  forall (fuel k c : nat),
    (forall j, (k <= j < k + n)%nat -> wifi_status e j = false) ->
    wifi_status e (k + n)%nat = true ->
    (c + n <= 21)%nat -> (n < fuel)%nat ->
    Client.wait_connected fuel e k (Z.of_nat c) =
      Some (replicate n (EvDelay WIFI_CONN_DELAY_MS), Active).
Proof.
  induction n as [|n IH]; intros fuel k c Hf Ht Hc Hlt;
    (destruct fuel as [|fuel]; [lia|]); cbn.
  - rewrite Nat.add_0_r in Ht. rewrite Ht. reflexivity.
  - rewrite (Hf k) by lia.
    replace (Z.of_nat c <=? Client.WIFI_CONN_ATTEMPTS) with true
      by (symmetry; apply Z.leb_le; unfold Client.WIFI_CONN_ATTEMPTS; lia).
    replace (wrap8 (Z.of_nat c + 1)) with (Z.of_nat (S c))
      by (unfold wrap8; rewrite Z.mod_small; lia).
    rewrite (IH fuel (S k) (S c)); [reflexivity | | | lia | lia].
    + intros j Hj. apply Hf. lia.
    + rewrite <- Ht. f_equal. lia.
Qed.

Lemma client_wait_sleeps (e : Env) (n : nat) :
  forall (fuel k c : nat),
    (forall j, (k <= j <= k + n)%nat -> wifi_status e j = false) ->
    (c + n = 21)%nat -> (n < fuel)%nat ->
    Client.wait_connected fuel e k (Z.of_nat c) =
      Some (replicate n (EvDelay WIFI_CONN_DELAY_MS)
            ++ [EvDeepSleep DEEP_SLEEP_US], Sleeping).
Proof.
  induction n as [|n IH]; intros fuel k c Hf Hc Hlt;
    (destruct fuel as [|fuel]; [lia|]); cbn; rewrite (Hf k) by lia.
  - replace (Z.of_nat c <=? Client.WIFI_CONN_ATTEMPTS) with false
      by (symmetry; apply Z.leb_gt; unfold Client.WIFI_CONN_ATTEMPTS; lia).
    reflexivity.
  - replace (Z.of_nat c <=? Client.WIFI_CONN_ATTEMPTS) with true
      by (symmetry; apply Z.leb_le; unfold Client.WIFI_CONN_ATTEMPTS; lia).
    replace (wrap8 (Z.of_nat c + 1)) with (Z.of_nat (S c))
      by (unfold wrap8; rewrite Z.mod_small; lia).
    rewrite (IH fuel (S k) (S c)); [reflexivity | | lia | lia].
    intros j Hj. apply Hf. lia.
Qed.

(** X12: the leaf's connection wait is bounded, unlike the relay's:
    looking at 22 polls is always enough for [setup] to end.  After the
    initial delay and [WiFi.begin]: if the station is connected at poll
    [k <= 21] for the first time, [setup] returns awake after [k] more
    delays, listening, with the gateway of the uplink as its peer; if
    none of the polls 0..21 answers connected, it asks for sleep after
    exactly 21 more delays (22 in all) and opens no socket. *)
Theorem client_setup_bounded (e : Env) (fuel : nat) (st : Client.State) :
  (22 <= fuel)%nat ->
  (forall k,
     (k <= 21)%nat ->
     (forall j, (j < k)%nat -> wifi_status e j = false) ->
     wifi_status e k = true ->
     exists st',
       Client.setup e fuel st =
         Some (st',
               EvDelay WIFI_CONN_DELAY_MS
               :: EvBegin Client.WIFI_SSID Client.WIFI_PASS
               :: replicate k (EvDelay WIFI_CONN_DELAY_MS)
               ++ [EvListen UDP_PORT],
               Active) /\
       Client.gateway_IP st' = dhcp_gateway e /\
       Client.localIP st' = dhcp_local e) /\
  ((forall j, (j <= 21)%nat -> wifi_status e j = false) ->
   Client.setup e fuel st =
     Some (st,
           EvDelay WIFI_CONN_DELAY_MS
           :: EvBegin Client.WIFI_SSID Client.WIFI_PASS
           :: replicate 21 (EvDelay WIFI_CONN_DELAY_MS)
           ++ [EvDeepSleep DEEP_SLEEP_US],
           Sleeping)).
Proof.
  intros Hfuel. split.
  - intros k Hk Hf Ht. unfold Client.setup.
    pose proof (client_wait_connected e k fuel 0 0) as H.
    change (Z.of_nat 0) with 0 in H. rewrite H; try assumption; try lia.
    + cbn. eexists. split; [reflexivity|]. split; reflexivity.
    + intros j Hj. apply Hf. lia.
  - intros Hf. unfold Client.setup.
    pose proof (client_wait_sleeps e 21 fuel 0 0) as H.
    change (Z.of_nat 0) with 0 in H. rewrite H; try lia.
    + reflexivity.
    + intros j Hj. apply Hf. lia.
Qed.

Lemma client_setup_bounded_witness :
  Client.setup lonely_env 22 Client.init_state =
    Some (Client.init_state,
          EvDelay WIFI_CONN_DELAY_MS
          :: EvBegin Client.WIFI_SSID Client.WIFI_PASS
          :: replicate 21 (EvDelay WIFI_CONN_DELAY_MS)
          ++ [EvDeepSleep DEEP_SLEEP_US],
          Sleeping).
Proof.
  refine (proj2 (client_setup_bounded lonely_env 22 Client.init_state _) _).
  - lia.
  - intros j _. reflexivity.
Defined.

(** X13: all a pass of the leaf's [loop] emits, whatever it receives:
    when its timer fires, one packet to its gateway made of the
    gateway's address, its own address and the byte 110; then the
    sleep request if that was its fifth packet.  It never forwards or
    answers a datagram. *)
Theorem client_loop_events (inp : LoopInput) (st : Client.State) :
  length (Client.txBuffer st) = UDP_PACKET_SIZE ->
  0 <= Client.msg_sent_cnt st < MSG_SENT_MAX ->
  snd (fst (Client.loop inp st)) =
    (if Client.fires inp st then
       [EvSend (Client.gateway_IP st) UDP_PORT
          (ip_octets (Client.gateway_IP st) ++ ip_octets (Client.localIP st)
           ++ [110])]
     else [])
    ++ (match snd (Client.loop inp st) with
        | Sleeping => [EvDeepSleep DEEP_SLEEP_US]
        | Active => []
        end) /\
  (snd (Client.loop inp st) = Sleeping <->
   Client.fires inp st = true /\
   Client.msg_sent_cnt st = MSG_SENT_MAX - 1).
Proof.
  intros Hl Hc.
  destruct (nine_bytes _ Hl) as (t0&t1&t2&t3&t4&t5&t6&t7&t8&Ht).
  destruct st as [gw rx tx pm cnt rip rport rsz lip sgw]; cbn in Ht, Hc; subst tx.
  assert (Hw : wrap_int (cnt + 1) = cnt + 1)
    by (apply wrap_int_small; unfold INT_MAX, MSG_SENT_MAX in *; lia).
  unfold Client.loop, Client.fires.
  destruct (inbound inp) as [d|];
    [destruct (UDP_parsePacket inp =? 0)|];
    cbn -[Z.leb wrap_ulong wrap_int Z.eqb Z.sub];
    destruct (Client.tx_period <=? wrap_ulong (millis1 inp - pm));
    cbn -[Z.leb wrap_ulong wrap_int Z.eqb Z.sub];
    rewrite ?Hw;
    match goal with
    | |- context [?x =? MSG_SENT_MAX] => destruct (Z.eqb_spec x MSG_SENT_MAX)
    end;
    cbn; unfold MSG_SENT_MAX in *;
    (split; [reflexivity|]); split; intros; try discriminate; try lia;
    try (split; [reflexivity | lia]); try reflexivity;
    try (destruct H; discriminate); try (destruct H; lia).
Qed.

Lemma client_loop_events_witness :
  snd (Client.loop (tick 50)
         (Client.mkState (mkIP 192 168 6 1) (replicate 9 0) (replicate 9 0)
            0 4 ip_zero 0 0 (mkIP 192 168 6 7) (mkIP 192 168 6 1)))
  = Sleeping
  <-> Client.fires (tick 50)
        (Client.mkState (mkIP 192 168 6 1) (replicate 9 0) (replicate 9 0)
           0 4 ip_zero 0 0 (mkIP 192 168 6 7) (mkIP 192 168 6 1)) = true
      /\ 4 = MSG_SENT_MAX - 1.
Proof.
  refine (proj2 (client_loop_events (tick 50)
            (Client.mkState (mkIP 192 168 6 1) (replicate 9 0) (replicate 9 0)
               0 4 ip_zero 0 0 (mkIP 192 168 6 7) (mkIP 192 168 6 1))
            eq_refl _)).
  unfold MSG_SENT_MAX; cbn; lia.
Defined.

(** * The sketches together

    A packet one sketch sends reaches the next as a datagram with the
    same bytes; its transport sender is the address of the interface
    it left from and its sender port the port of the sending socket,
    which every sketch binds to [UDP_PORT]. *)

Lemma prefix_subnetOf (a : IPAddress) : prefix (subnetOf a) = prefix a.
Proof. reflexivity. Qed.

Lemma subnetOf_by_prefix (a b : IPAddress) :
  prefix a = prefix b -> subnetOf a = subnetOf b.
Proof.
  destruct a, b; unfold prefix, subnetOf; cbn. intros [= -> -> ->].
  reflexivity.
Qed.

Lemma embedded_dst_octets (a : IPAddress) (rest : list Z) :
  embedded_dst (ip_octets a ++ rest) = a.
Proof. destruct a; reflexivity. Qed.

Lemma wf_packet (a b : IPAddress) (p : Z) (ip : IPAddress) (port : Z) :
  ip_wf a -> ip_wf b -> is_octet p ->
  wf_datagram (mkDatagram (ip_octets a ++ ip_octets b ++ [p]) ip port).
Proof.
  intros Ha Hb Hp. split; [reflexivity|]. cbn [dg_bytes].
  apply Forall_app; split; [exact Ha|].
  apply Forall_app; split; [exact Hb|]. constructor; [exact Hp | constructor].
Qed.

(** In a session: the own address is well formed, an address with the
    prefix of the own address is in the downstream subnet, and, unless
    the host octet of the uplink address is 0, the uplink network is
    not the downstream subnet. *)
Lemma session_subnets (e : Env) (st : State) :
  Reachable e st -> ip_wf (dhcp_local e) ->
  ip_wf (own_IP st) /\
  subnetOf (own_IP st) = sub_network_IP st /\
  (ip3 (dhcp_local e) <> 0 ->
   prefix (uplink_address st) <> prefix (own_IP st)).
Proof.
  intros Hr Hl.
  destruct (session_identity e st Hr Hl) as (-> & _ & -> & -> & _).
  apply ip_wf_octets in Hl as (H0 & H1 & H2 & H3).
  split; [|split].
  - unfold ip_wf, ip_octets; cbn.
    repeat (constructor;
            [first [assumption | apply wrap8_is_octet
                   | unfold is_octet; lia]|]).
    constructor.
  - reflexivity.
  - intros Hne. destruct (dhcp_local e) as [l0 l1 l2 l3]; cbn in *.
    unfold prefix; cbn. intros [= Hs]. unfold wrap8, is_octet in *.
    Z.to_euclidean_division_equations. lia.
Qed.

(** The telemetry packet of a pass whose timer fires. *)
Lemma loop_telemetry_event (inp : LoopInput) (st : State) :
  length (txBuffer st) = UDP_PACKET_SIZE -> fires inp st = true ->
  In (EvSend (sup_gateway_IP st) UDP_PORT
        (telemetry_packet (uplink_address st) st))
     (snd (fst (loop inp st))).
Proof.
  intros Hl Hf. rewrite loop_events, Hf.
  destruct (receive_keeps inp st) as (Ht & _ & _).
  pose proof (receive_frame inp st) as Hfr.
  rewrite telemetry_send by (rewrite Ht; exact Hl).
  unfold telemetry_packet, uplink_address.
  rewrite Hfr; cbn [sup_gateway_IP WiFi with_scratch].
  apply in_or_app; right. apply in_or_app; left. left. reflexivity.
Qed.

(** What the relay does with a datagram from its uplink network that
    is addressed to [dst], when the host octet of its uplink address
    is not 0. *)
Lemma forward_from_uplink (e : Env) (st : State) (d : Datagram) :
  Reachable e st -> ip_wf (dhcp_local e) -> ip3 (dhcp_local e) <> 0 ->
  wf_datagram d ->
  prefix (dg_remoteIP d) = prefix (uplink_address st) ->
  (embedded_dst (dg_bytes d) = uplink_address st ->
   outbound d st =
     [EvActionUponRx (Z.of_nat UDP_PACKET_SIZE) (buf_at (dg_bytes d) 8)]) /\
  (prefix (embedded_dst (dg_bytes d)) = prefix (own_IP st) ->
   outbound d st =
     [EvSend (embedded_dst (dg_bytes d)) (dg_remotePort d) (dg_bytes d)]).
Proof.
  intros Hr Hl Hne Hwf Hp.
  destruct (session_subnets e st Hr Hl) as (_ & Hsub & Hdiff).
  specialize (Hdiff Hne).
  assert (Ha : subnetOf (dg_remoteIP d) <> sub_network_IP st).
  { intros E. apply Hdiff. rewrite <- Hp, <- (prefix_subnetOf (dg_remoteIP d)).
    rewrite E, <- Hsub. reflexivity. }
  split.
  - intros Hb. apply (forward_by_case CaseB d st Hwf). split; assumption.
  - intros Hc. apply (forward_by_case CaseC d st Hwf).
    split; [exact Ha|]. split.
    + intros E. apply Hdiff. rewrite <- Hc, E. reflexivity.
    + rewrite <- Hsub. apply subnetOf_by_prefix. exact Hc.
Qed.

Lemma client_fires_sends (inp : LoopInput) (st : Client.State) :
  length (Client.txBuffer st) = UDP_PACKET_SIZE ->
  Client.fires inp st = true ->
  In (EvSend (Client.gateway_IP st) UDP_PORT
        (ip_octets (Client.gateway_IP st) ++ ip_octets (Client.localIP st)
         ++ [110]))
     (snd (fst (Client.loop inp st))).
Proof.
  intros Hl Hf.
  destruct (nine_bytes _ Hl) as (t0&t1&t2&t3&t4&t5&t6&t7&t8&Ht).
  destruct st as [gw rx tx pm cnt rip rport rsz lip sgw]; cbn in Ht; subst tx.
  unfold Client.loop, Client.fires in *; cbn [Client.previousMillis] in Hf.
  destruct (inbound inp) as [d|];
    [destruct (UDP_parsePacket inp =? 0)|];
    cbn -[Z.leb wrap_ulong wrap_int Z.eqb Z.sub];
    rewrite Hf; cbn -[Z.leb wrap_ulong wrap_int Z.eqb Z.sub];
    destruct (wrap_int (cnt + 1) =? MSG_SENT_MAX); left; reflexivity.
Qed.

Lemma base_station_reply (a b : IPAddress) (p : Z) (ip : IPAddress)
    (port : Z) (st : BaseStation.State) :
  length (BaseStation.txBuffer st) = UDP_PACKET_SIZE ->
  snd (BaseStation.loop
         (Some (mkDatagram (ip_octets a ++ ip_octets b ++ [p]) ip port)) st) =
    [EvSend ip port (ip_octets b ++ ip_octets (BaseStation.softAPIP st)
                     ++ [66])].
Proof.
  intros Ht.
  destruct (nine_bytes _ Ht) as (t0&t1&t2&t3&t4&t5&t6&t7&t8&Hb).
  destruct st, a, b; cbn in Hb; subst. reflexivity.
Qed.

(** X14: two-way traffic through the relay.  The report of a leaf
    attached to the relay is sent on, unchanged, to the upstream
    neighbour; the base station answers it to the relay; and the relay
    sends that answer, unchanged, to the leaf that reported. *)
Theorem report_and_reply_through_relay (e : Env) (st st' : State)
    (cs : Client.State) (inp : LoopInput) (bs : BaseStation.State)
    (bs_addr : IPAddress) :
  Reachable e st -> Reachable e st' ->
  ip_wf (dhcp_local e) -> ip3 (dhcp_local e) <> 0 ->
  Client.gateway_IP cs = own_IP st ->
  ip_wf (Client.localIP cs) ->
  prefix (Client.localIP cs) = prefix (own_IP st) ->
  length (Client.txBuffer cs) = UDP_PACKET_SIZE ->
  Client.fires inp cs = true ->
  length (BaseStation.txBuffer bs) = UDP_PACKET_SIZE ->
  ip_wf (BaseStation.softAPIP bs) ->
  prefix bs_addr = prefix (uplink_address st) ->
  let report :=
    ip_octets (own_IP st) ++ ip_octets (Client.localIP cs) ++ [110] in
  let reply :=
    ip_octets (Client.localIP cs) ++ ip_octets (BaseStation.softAPIP bs)
    ++ [66] in
  In (EvSend (own_IP st) UDP_PORT report) (snd (fst (Client.loop inp cs))) /\
  outbound (mkDatagram report (Client.localIP cs) UDP_PORT) st =
    [EvSend (sup_gateway_IP st) UDP_PORT report] /\
  snd (BaseStation.loop
         (Some (mkDatagram report (uplink_address st) UDP_PORT)) bs) =
    [EvSend (uplink_address st) UDP_PORT reply] /\
  outbound (mkDatagram reply bs_addr UDP_PORT) st' =
    [EvSend (Client.localIP cs) UDP_PORT reply].
Proof.
  intros Hr Hr' Hl Hne Hgw Hc Hcp Hct Hcf Hbt Hb Hbp report reply.
  destruct (session_subnets e st Hr Hl) as (Hown & Hsub & _).
  destruct (session_identity e st Hr Hl) as (Hu & _ & Ho & _).
  destruct (session_identity e st' Hr' Hl) as (Hu' & _ & Ho' & _).
  split; [|split; [|split]].
  - subst report. rewrite <- Hgw. apply client_fires_sends; assumption.
  - assert (Hwf : wf_datagram
                    (mkDatagram report (Client.localIP cs) UDP_PORT))
      by (apply wf_packet; [exact Hown | exact Hc | unfold is_octet; lia]).
    assert (Ha : applies CaseA
                   (mkDatagram report (Client.localIP cs) UDP_PORT) st).
    { unfold applies, applies_with; cbn [dg_remoteIP].
      rewrite <- Hsub. apply subnetOf_by_prefix. exact Hcp. }
    rewrite (forward_by_case CaseA _ st Hwf Ha). reflexivity.
  - apply base_station_reply. exact Hbt.
  - assert (Hwf : wf_datagram (mkDatagram reply bs_addr UDP_PORT))
      by (apply wf_packet; [exact Hc | exact Hb | unfold is_octet; lia]).
    destruct (forward_from_uplink e st' _ Hr' Hl Hne Hwf) as [_ H].
    + cbn [dg_remoteIP]. rewrite Hu', <- Hu. exact Hbp.
    + cbn [dg_bytes dg_remotePort] in H. subst reply.
      rewrite embedded_dst_octets in H. apply H.
      rewrite Ho', <- Ho. exact Hcp.
Qed.

(** X15: the answer to the relay's own telemetry comes home.  The
    packet a firing sends to the upstream neighbour is answered by the
    base station to the relay's address on the uplink, and the relay
    hands that answer to [actionUponRx] instead of sending it on. *)
Theorem telemetry_reply_delivered (e : Env) (st st' : State)
    (inp : LoopInput) (bs : BaseStation.State) (bs_addr : IPAddress) :
  Reachable e st -> Reachable e st' ->
  ip_wf (dhcp_local e) -> ip3 (dhcp_local e) <> 0 ->
  fires inp st = true ->
  length (BaseStation.txBuffer bs) = UDP_PACKET_SIZE ->
  ip_wf (BaseStation.softAPIP bs) ->
  prefix bs_addr = prefix (uplink_address st) ->
  let report :=
    ip_octets (sup_gateway_IP st) ++ ip_octets (uplink_address st) ++ [65] in
  let reply :=
    ip_octets (uplink_address st) ++ ip_octets (BaseStation.softAPIP bs)
    ++ [66] in
  In (EvSend (sup_gateway_IP st) UDP_PORT report) (snd (fst (loop inp st))) /\
  snd (BaseStation.loop
         (Some (mkDatagram report (uplink_address st) UDP_PORT)) bs) =
    [EvSend (uplink_address st) UDP_PORT reply] /\
  outbound (mkDatagram reply bs_addr UDP_PORT) st' =
    [EvActionUponRx (Z.of_nat UDP_PACKET_SIZE) 66].
Proof.
  intros Hr Hr' Hl Hne Hf Hbt Hb Hbp report reply.
  destruct (session_identity e st Hr Hl) as (Hu & _).
  destruct (session_identity e st' Hr' Hl) as (Hu' & _).
  pose proof (Reachable_inv e st Hr) as (_ & _ & _ & _ & _ & _ & _ & Hlen & _).
  split; [|split].
  - apply loop_telemetry_event; assumption.
  - apply base_station_reply. exact Hbt.
  - assert (Hwf : wf_datagram (mkDatagram reply bs_addr UDP_PORT)).
    { apply wf_packet; [rewrite Hu; exact Hl | exact Hb
                        | unfold is_octet; lia]. }
    destruct (forward_from_uplink e st' _ Hr' Hl Hne Hwf) as [H _].
    + cbn [dg_remoteIP]. rewrite Hu', <- Hu. exact Hbp.
    + cbn [dg_bytes] in H. subst reply.
      rewrite embedded_dst_octets in H. rewrite H.
      * destruct (uplink_address st), (BaseStation.softAPIP bs). reflexivity.
      * rewrite Hu, Hu'. reflexivity.
Qed.

(** X16: the broadcast fallback carries an answer across two relays.
    A packet from above for a leaf of a lower relay, which is itself a
    station of this relay, is in nobody's subnet here, so this relay
    broadcasts it downstream; the lower relay receives the broadcast
    from this relay's access point and sends it to the leaf. *)
Theorem reply_reaches_grandchild (e_up e_low : Env) (st_up st_low : State)
    (d : Datagram) :
  Reachable e_up st_up -> Reachable e_low st_low ->
  ip_wf (dhcp_local e_up) -> ip_wf (dhcp_local e_low) ->
  ip3 (dhcp_local e_low) <> 0 ->
  prefix (dhcp_local e_low) = prefix (own_IP st_up) ->
  wf_datagram d -> dg_remotePort d = UDP_PORT ->
  subnetOf (dg_remoteIP d) <> sub_network_IP st_up ->
  embedded_dst (dg_bytes d) <> uplink_address st_up ->
  prefix (embedded_dst (dg_bytes d)) = prefix (own_IP st_low) ->
  outbound d st_up = [EvSend (sub_broadcast_IP st_up) UDP_PORT (dg_bytes d)] /\
  outbound (mkDatagram (dg_bytes d) (own_IP st_up) UDP_PORT) st_low =
    [EvSend (embedded_dst (dg_bytes d)) UDP_PORT (dg_bytes d)].
Proof.
  intros Hup Hlow Hlu Hll Hne Hsta Hwf Hport Ha Hb Hdst.
  destruct (session_subnets e_up st_up Hup Hlu) as (_ & Hsub_up & _).
  destruct (session_subnets e_low st_low Hlow Hll) as (_ & _ & Hdiff).
  destruct (session_identity e_low st_low Hlow Hll) as (Hu & _).
  specialize (Hdiff Hne). split.
  - assert (Hd : applies CaseD d st_up).
    { split; [exact Ha|]. split; [exact Hb|].
      intros E. apply Hdiff.
      rewrite Hu, Hsta, <- Hdst, <- (prefix_subnetOf (embedded_dst _)).
      rewrite E, <- Hsub_up. reflexivity. }
    rewrite (forward_by_case CaseD d st_up Hwf Hd), Hport. reflexivity.
  - assert (Hwf' : wf_datagram
                     (mkDatagram (dg_bytes d) (own_IP st_up) UDP_PORT))
      by exact Hwf.
    destruct (forward_from_uplink e_low st_low _ Hlow Hll Hne Hwf') as [_ H].
    + cbn [dg_remoteIP]. rewrite Hu. symmetry. exact Hsta.
    + apply H. exact Hdst.
Qed.

Lemma reachable_lower_state : Reachable lower_env lower_state.
Proof.
  apply (Reach_setup lower_env 1%nat lower_state
           (match setup lower_env 1 init_state with
            | Some (_, tr, _) => tr
            | None => []
            end)).
  vm_compute; reflexivity.
Qed.

Lemma report_and_reply_through_relay_witness :
  outbound
    (mkDatagram [192; 168; 6; 1; 192; 168; 6; 7; 110] (mkIP 192 168 6 7) 4210)
    relay_state =
    [EvSend (mkIP 192 168 4 1) 4210 [192; 168; 6; 1; 192; 168; 6; 7; 110]] /\
  outbound
    (mkDatagram [192; 168; 6; 7; 192; 168; 4; 1; 66] (mkIP 192 168 4 1) 4210)
    relay_state =
    [EvSend (mkIP 192 168 6 7) 4210 [192; 168; 6; 7; 192; 168; 4; 1; 66]].
Proof.
  assert (Hl : ip_wf (dhcp_local relay_env)) by octets.
  assert (Hne : ip3 (dhcp_local relay_env) <> 0) by discriminate.
  assert (Hc : ip_wf (Client.localIP leaf_state)) by octets.
  assert (Hb : ip_wf (BaseStation.softAPIP bs_state)) by octets.
  pose proof (report_and_reply_through_relay relay_env relay_state
                relay_state leaf_state (tick 50) bs_state (mkIP 192 168 4 1)
                reachable_relay_state reachable_relay_state Hl Hne eq_refl Hc
                eq_refl eq_refl eq_refl eq_refl Hb eq_refl) as H.
  exact (conj (proj1 (proj2 H)) (proj2 (proj2 (proj2 H)))).
Defined.

Lemma telemetry_reply_delivered_witness :
  outbound
    (mkDatagram [192; 168; 4; 2; 192; 168; 4; 1; 66] (mkIP 192 168 4 1) 4210)
    relay_state = [EvActionUponRx 9 66].
Proof.
  assert (Hl : ip_wf (dhcp_local relay_env)) by octets.
  assert (Hne : ip3 (dhcp_local relay_env) <> 0) by discriminate.
  assert (Hb : ip_wf (BaseStation.softAPIP bs_state)) by octets.
  exact (proj2 (proj2
           (telemetry_reply_delivered relay_env relay_state relay_state
              (tick 9000) bs_state (mkIP 192 168 4 1)
              reachable_relay_state reachable_relay_state Hl Hne eq_refl
              eq_refl Hb eq_refl))).
Defined.

Lemma reply_reaches_grandchild_witness :
  outbound dgram_to_grandchild relay_state =
    [EvSend (mkIP 192 168 6 255) 4210 [192; 168; 8; 5; 192; 168; 4; 1; 66]] /\
  outbound
    (mkDatagram [192; 168; 8; 5; 192; 168; 4; 1; 66] (mkIP 192 168 6 1) 4210)
    lower_state =
    [EvSend (mkIP 192 168 8 5) 4210 [192; 168; 8; 5; 192; 168; 4; 1; 66]].
Proof.
  assert (Hlu : ip_wf (dhcp_local relay_env)) by octets.
  assert (Hll : ip_wf (dhcp_local lower_env)) by octets.
  assert (Hne : ip3 (dhcp_local lower_env) <> 0) by discriminate.
  assert (Hwf : wf_datagram dgram_to_grandchild)
    by (split; [reflexivity | octets]).
  assert (Ha : subnetOf (dg_remoteIP dgram_to_grandchild)
               <> sub_network_IP relay_state) by discriminate.
  assert (Hb : embedded_dst (dg_bytes dgram_to_grandchild)
               <> uplink_address relay_state) by discriminate.
  exact (reply_reaches_grandchild relay_env lower_env relay_state lower_state
           dgram_to_grandchild reachable_relay_state reachable_lower_state
           Hlu Hll Hne eq_refl Hwf eq_refl Ha Hb eq_refl).
Defined.
